(** * Seat inventory and booking ledger of the rideshare backend

    A shallow embedding of [backend/models/Ride.js], [backend/models/Booking.js],
    the handlers [bookRide], [cancelRide], [cancelBooking] of
    [backend/controllers/rideController.js] and [submitRating] of
    [backend/controllers/ratingController.js]; then of the further methods of
    the Ride model, the handlers [updateRideStatus] and [getAvailableSeats]
    and the search helpers of [rideController.js].

    Conventions.
    - A [Date] is its number of milliseconds since the epoch, a [Z]; the
      server clock is read once per request ([now]) and the time zone is UTC.
    - A JavaScript [Number] holding a seat count is a [Z]: the seat count of
      a request is a whole number or missing.  A price is a [Q].
      Comparisons of a millisecond difference divided by 3600000 against the
      integers 24 and 2 are exact in floating point, and so is halving; the
      product of a seat count and a price is exact when the price is a whole
      number, which the theorems on a total price assume.
    - An [ObjectId] is the string [toString()] prints, 24 hexadecimal
      digits.  A path that a query populated holds the referenced document:
      its [_id.toString()] is the identifier, its own [toString()] is the
      document as [util.inspect] prints it, which no identifier equals.
      Every reference to a user names a stored user.
    - Texts (addresses, search texts) are ASCII strings: [toLowerCase] maps
      the letters A-Z, and white space is the tab, the line terminators and
      the space.
    - The two collections are finite maps from [_id] to document.  Schema
      hooks written in the models (pre/post [save], pre [find]) run where
      Mongoose runs them: validation, then pre-save hooks, then the write,
      then post-save hooks; every query on the Ride model, including the one
      [populate] issues, passes through the pre-find hook.
    - Only the document fields the handlers read or write are kept. *)

From Stdlib Require Import ZArith QArith Qabs String Ascii List Lia Bool.
From stdpp Require Import gmap strings.

Import ListNotations.
Local Open Scope Z_scope.

Abbreviation ObjectId := string (only parsing).
Abbreviation Date := Z (only parsing).

(** ** Clock strings: [String.prototype.split] and [parseInt] *)

Module Js.

Definition isWhiteSpace (c : ascii) : bool :=
  let n := Z.of_nat (nat_of_ascii c) in
  ((9 <=? n) && (n <=? 13)) || (n =? 32).

Fixpoint trimStart (s : string) : string :=
  match s with
  | String c s' => if isWhiteSpace c then trimStart s' else s
  | EmptyString => s
  end.

Definition digitValue (radix : Z) (c : ascii) : option Z :=
  let n := Z.of_nat (nat_of_ascii c) in
  let v := if (48 <=? n) && (n <=? 57) then Some (n - 48)
           else if (97 <=? n) && (n <=? 122) then Some (n - 87)
           else if (65 <=? n) && (n <=? 90) then Some (n - 55)
           else None in
  match v with
  | Some d => if d <? radix then Some d else None
  | None => None
  end.

(** Longest prefix of digits; [None] is [NaN] (no digit at all). *)
Fixpoint readDigits (radix : Z) (s : string) (acc : option Z) : option Z :=
  match s with
  | String c s' =>
      match digitValue radix c with
      | Some d => readDigits radix s' (Some (radix * default 0 acc + d))
      | None => acc
      end
  | EmptyString => acc
  end.

Definition stripSign (s : string) : bool * string :=
  match s with
  | String "-"%char s' => (true, s')
  | String "+"%char s' => (false, s')
  | _ => (false, s)
  end.

Definition stripRadix (s : string) : Z * string :=
  match s with
  | String "0"%char (String "x"%char s') => (16, s')
  | String "0"%char (String "X"%char s') => (16, s')
  | _ => (10, s)
  end.

(** [parseInt(s)] without a radix argument. *)
Definition parseInt (s : string) : option Z :=
  let (neg, s1) := stripSign (trimStart s) in
  let (radix, s2) := stripRadix s1 in
  match readDigits radix s2 None with
  | Some v => Some (if neg then - v else v)
  | None => None
  end.

(** The first decimal digit of a positive whole number. *)
Fixpoint firstDigit (fuel : nat) (n : Z) : Z :=
  match fuel with
  | O => n
  | S fuel' => if n <? 10 then n else firstDigit fuel' (n / 10)
  end.

(** [parseInt(n)] on a Number holding the whole number [n].  [String(n)] is
    the decimal expansion of [n] below 1e21, which [parseInt] reads back;
    from 1e21 on it is in exponent notation, of which [parseInt] reads the
    digits before the point: one digit, taken here from the decimal
    expansion of [n].  The theorems on seat counts stay below 1e21. *)
Definition parseIntNumber (n : Z) : Z :=
  if Z.abs n <? 10 ^ 21 then n
  else Z.sgn n * firstDigit (Z.to_nat (Z.log2 (Z.abs n))) (Z.abs n).

(** [s.split(':')] *)
Fixpoint splitColon (s : string) (cur : string) : list string :=
  match s with
  | String c s' =>
      if Ascii.eqb c ":"%char then cur :: splitColon s' EmptyString
      else splitColon s' (String.append cur (String c EmptyString))
  | EmptyString => [cur]
  end.

(** [parseInt(undefined)] is [NaN]. *)
Definition parseIntOpt (o : option string) : option Z :=
  match o with
  | Some s => parseInt s
  | None => None
  end.

Definition msPerMinute : Z := 60000.
Definition msPerHour : Z := 3600000.
Definition msPerDay : Z := 86400000.

(** A time value beyond 8.64e15 milliseconds either side of the epoch is no
    date. *)
Definition timeClip (t : Z) : option Date :=
  if Z.abs t <=? 8640000000000000 then Some t else None.

(** [d.setHours(h, m)] on the copy [d] of a date: the day, the seconds and the
    milliseconds are kept, out-of-range fields carry over; [NaN] in either
    argument, or a result out of the range of dates, gives an invalid date
    ([None]). *)
Definition setHours (d : Date) (h m : option Z) : option Date :=
  match h, m with
  | Some h, Some m =>
      timeClip
        (d - d mod msPerDay + h * msPerHour + m * msPerMinute + d mod msPerMinute)
  | _, _ => None
  end.

End Js.

(** ** String methods: [toLowerCase], [trim], [replace], [includes], [split] *)

Module Text.

Definition toLowerChar (c : ascii) : ascii :=
  let n := nat_of_ascii c in
  if ((65 <=? n) && (n <=? 90))%nat then ascii_of_nat (n + 32) else c.

(** [s.toLowerCase()] *)
Fixpoint toLowerCase (s : string) : string :=
  match s with
  | String c s' => String (toLowerChar c) (toLowerCase s')
  | EmptyString => EmptyString
  end.

(** [s.trimEnd()] *)
Fixpoint trimEnd (s : string) : string :=
  match s with
  | String c s' =>
      match trimEnd s' with
      | EmptyString =>
          if Js.isWhiteSpace c then EmptyString else String c EmptyString
      | t => String c t
      end
  | EmptyString => EmptyString
  end.

(** [s.trim()] *)
Definition trim (s : string) : string := trimEnd (Js.trimStart s).

(** [s.replace(/\s+/g, ' ')]; [inRun] tells that the character before was
    white space. *)
Fixpoint collapse (inRun : bool) (s : string) : string :=
  match s with
  | String c s' =>
      if Js.isWhiteSpace c
      then if inRun then collapse true s' else String " " (collapse true s')
      else String c (collapse false s')
  | EmptyString => EmptyString
  end.

(** [hay.includes(needle)] *)
Fixpoint includes (hay needle : string) : bool :=
  String.prefix needle hay
  || match hay with
     | String _ hay' => includes hay' needle
     | EmptyString => false
     end.

(** [s.split(/\s+/)]; [cur] is the piece being read. *)
Fixpoint splitSpaces (s cur : string) (inRun : bool) : list string :=
  match s with
  | String c s' =>
      if Js.isWhiteSpace c
      then if inRun then splitSpaces s' cur true
           else cur :: splitSpaces s' EmptyString true
      else splitSpaces s' (String.append cur (String c EmptyString)) false
  | EmptyString => [cur]
  end.

End Text.

(** ** The Ride model, [backend/models/Ride.js] *)

Module Ride.

Inductive Status := active | completed | cancelled | full | in_progress | expired.

Inductive PassengerStatus := p_confirmed | p_pending | p_cancelled | p_no_show.

Record Passenger := mkPassenger {
  user : ObjectId;
  bookedAt : Date;
  pickupPoint : option string;
  seats : Z;
  pstatus : PassengerStatus;
  booking : ObjectId
}.

Record t := mk {
  _id : ObjectId;
  driver : ObjectId;
  date : Date;
  departureTime : string;
  availableSeats : Z;
  pricePerSeat : Q;
  passengers : list Passenger;
  status : Status;
  rideCompletedAt : option Date
}.

#[global] Instance Status_eq_dec : EqDecision Status.
Proof. solve_decision. Defined.

#[global] Instance PassengerStatus_eq_dec : EqDecision PassengerStatus.
Proof. solve_decision. Defined.

Definition set_status (s : Status) (r : t) : t :=
  mk (_id r) (driver r) (date r) (departureTime r) (availableSeats r)
     (pricePerSeat r) (passengers r) s (rideCompletedAt r).

Definition set_rideCompletedAt (d : option Date) (r : t) : t :=
  mk (_id r) (driver r) (date r) (departureTime r) (availableSeats r)
     (pricePerSeat r) (passengers r) (status r) d.

Definition set_availableSeats (n : Z) (r : t) : t :=
  mk (_id r) (driver r) (date r) (departureTime r) n
     (pricePerSeat r) (passengers r) (status r) (rideCompletedAt r).

Definition set_passengers (l : list Passenger) (r : t) : t :=
  mk (_id r) (driver r) (date r) (departureTime r) (availableSeats r)
     (pricePerSeat r) l (status r) (rideCompletedAt r).

(** [['confirmed', 'pending'].includes(passenger.status)] *)
Definition holdsSeats (p : Passenger) : bool :=
  match pstatus p with
  | p_confirmed | p_pending => true
  | _ => false
  end.

(** virtual [bookedSeats] *)
Definition bookedSeats (r : t) : Z :=
  fold_left (fun total p => total + seats p)
            (List.filter holdsSeats (passengers r)) 0.

(** virtual [remainingSeats] *)
Definition remainingSeats (r : t) : Z := availableSeats r - bookedSeats r.

(** The departure instant the virtual [isPast] and [canBeCancelled] build. *)
Definition rideDateTime (r : t) : option Date :=
  let parts := Js.splitColon (departureTime r) EmptyString in
  Js.setHours (date r) (Js.parseIntOpt (nth_error parts 0))
                       (Js.parseIntOpt (nth_error parts 1)).

(** virtual [isPast]; a comparison with an invalid date is false. *)
Definition isPast (r : t) (now : Date) : bool :=
  match rideDateTime r with
  | Some t => t <? now
  | None => false
  end.

Definition isFull (r : t) : bool := remainingSeats r <=? 0.

Definition isPassenger (r : t) (userId : ObjectId) : bool :=
  existsb (fun p => String.eqb (user p) userId
                    && bool_decide (pstatus p = p_confirmed)) (passengers r).

(** method [updateStatus] *)
Definition updateStatus (now : Date) (r : t) : t :=
  let r1 :=
    if isFull r then set_status full r
    else if bool_decide (status r = full) && negb (isFull r)
         then set_status active r
         else r in
  if isPast r1 now && bool_decide (status r1 = active)
  then set_rideCompletedAt (Some now) (set_status completed r1)
  else r1.

End Ride.

(** ** The Booking model, [backend/models/Booking.js] *)

Module Booking.

Inductive Status := pending | confirmed | cancelled | completed | rejected.

Inductive PaymentStatus := pay_pending | paid | failed | refunded.

Record t := mk {
  _id : ObjectId;
  ride : ObjectId;
  passenger : ObjectId;
  seatsBooked : Z;
  totalPrice : Q;
  pickupAddress : string;
  status : Status;
  bookingDate : Date;
  paymentStatus : PaymentStatus;
  driverRating : option Z;       (* driverRating.rating *)
  passengerRating : option Z     (* passengerRating.rating *)
}.

#[global] Instance Status_eq_dec : EqDecision Status.
Proof. solve_decision. Defined.

#[global] Instance PaymentStatus_eq_dec : EqDecision PaymentStatus.
Proof. solve_decision. Defined.

Definition set_status (s : Status) (b : t) : t :=
  mk (_id b) (ride b) (passenger b) (seatsBooked b) (totalPrice b)
     (pickupAddress b) s (bookingDate b) (paymentStatus b)
     (driverRating b) (passengerRating b).

Definition set_pickupAddress (a : string) (b : t) : t :=
  mk (_id b) (ride b) (passenger b) (seatsBooked b) (totalPrice b)
     a (status b) (bookingDate b) (paymentStatus b)
     (driverRating b) (passengerRating b).

Definition set_driverRating (v : option Z) (b : t) : t :=
  mk (_id b) (ride b) (passenger b) (seatsBooked b) (totalPrice b)
     (pickupAddress b) (status b) (bookingDate b) (paymentStatus b)
     v (passengerRating b).

Definition set_passengerRating (v : option Z) (b : t) : t :=
  mk (_id b) (ride b) (passenger b) (seatsBooked b) (totalPrice b)
     (pickupAddress b) (status b) (bookingDate b) (paymentStatus b)
     (driverRating b) v.

(** [['pending', 'confirmed'].includes(status)], also the filter of the
    unique partial index and of the duplicate query of [bookRide]. *)
Definition isActive (s : Status) : bool :=
  match s with
  | pending | confirmed => true
  | _ => false
  end.

(** The path [ride] as a method finds it: holding the ObjectId, populated
    with the ride document (of which [date] is read), or populated with
    [null] when the query of [populate] found no ride. *)
Inductive RidePath :=
| notPopulated
| populatedNull
| populatedWith (date : Date).

(** A method returns a value, or throws the [TypeError] of [this.ride.date]
    on [null]. *)
Inductive Result (A : Type) :=
| returns (a : A)
| throwsTypeError.
Arguments returns {A} a.
Arguments throwsTypeError {A}.

(** [this.populated('ride') ? this.ride.date : null] *)
Definition rideDateOf (ride : RidePath) : Result (option Date) :=
  match ride with
  | notPopulated => returns None
  | populatedNull => throwsTypeError
  | populatedWith d => returns (Some d)
  end.

(** method [canBeCancelled].  One hour is taken off the ride date. *)
Definition canBeCancelled (b : t) (ride : RidePath) (now : Date) : Result bool :=
  match rideDateOf ride with
  | throwsTypeError => throwsTypeError
  | returns None => returns false
  | returns (Some d) =>
      let cancellationDeadline := d - 1 * Js.msPerHour in
      returns ((now <? cancellationDeadline)
               && isActive (status b)
               && negb (bool_decide (paymentStatus b = refunded)))
  end.

(** [(rideDate - now) / (1000 * 60 * 60)] *)
Definition hoursUntilRide (rideDate now : Date) : Q :=
  (inject_Z (rideDate - now) / inject_Z (1000 * 60 * 60))%Q.

Definition Qgtb (a b : Q) : bool := negb (Qle_bool a b).

(** method [calculateRefund] *)
Definition calculateRefund (b : t) (ride : RidePath) (now : Date) : Result Q :=
  if negb (bool_decide (status b = cancelled)) then returns 0%Q
  else
    match rideDateOf ride with
    | throwsTypeError => throwsTypeError
    | returns None => returns 0%Q
    | returns (Some d) =>
        let hoursUntilRide := hoursUntilRide d now in
        if Qgtb hoursUntilRide 24 then returns (totalPrice b)
        else if Qgtb hoursUntilRide 2 then returns (totalPrice b * (1 # 2))%Q
        else returns 0%Q
    end.

End Booking.

(** The refund policy in the words of the specification: a function of the
    total price and of the hours left until the scheduled departure, nothing
    else. *)
Definition refundPolicy (totalPrice hoursUntilDeparture : Q) : Q :=
  if Booking.Qgtb hoursUntilDeparture 24 then totalPrice
  else if Booking.Qgtb hoursUntilDeparture 2 then (totalPrice / 2)%Q
  else 0%Q.

(** ** The document store and the handler monad *)

Record DB := mkDB {
  rides : gmap string Ride.t;
  bookings : gmap string Booking.t
}.

(** What [throw] carries inside a handler. *)
Inductive Error :=
| ValidationError (path : string)
| RideNotFoundError                      (* Error('Ride not found') *)
| OnlySeatsAvailableError (n : Z)        (* Error(`Only ${n} seats available`) *)
| CannotBookError (s : Ride.Status)      (* Error(`Cannot book a ${status} ride`) *)
| DuplicateKeyError                      (* unique partial index on (ride, passenger) *)
| DocumentNotFoundError
| TypeError.                             (* property read on null *)

(** The [message] field of a JSON reply. *)
Inductive Message :=
| InvalidSeats               (* 'Please provide valid number of seats (minimum 1)' *)
| MissingPickupPoint         (* 'Please provide pickup point' *)
| RideNotFound               (* 'Ride not found' *)
| CannotBookRide (s : Ride.Status)   (* `Cannot book this ride. Ride is ${status}` *)
| NotEnoughSeats (n : Z)     (* `Not enough seats available. Only ${n} seat(s) left.` *)
| OwnRide                    (* 'Cannot book your own ride' *)
| AlreadyBooked              (* 'You already have a booking for this ride' *)
| RideBooked (b : Booking.t) (* 'Ride booked successfully' *)
| ErrorBookingRide (e : Error)
| NotAuthorizedCancelRide    (* 'Not authorized to cancel this ride' *)
| RideCancelled (r : Ride.t) (* 'Ride cancelled successfully' *)
| ErrorCancellingRide (e : Error)
| BookingNotFound            (* 'Booking not found' *)
| NotAuthorizedCancelBooking (* 'Not authorized to cancel this booking' *)
| BookingCancelled (b : Booking.t)   (* 'Booking cancelled successfully' *)
| ErrorCancellingBooking (e : Error)
| MissingRatingFields        (* 'Please provide rating and ratedUserType' *)
| RatingOutOfRange           (* 'Rating must be between 1 and 5' *)
| BadRatedUserType           (* 'ratedUserType must be either "driver" or "rider"' *)
| OnlyCompletedRides         (* 'Can only rate completed rides' *)
| NotAuthorizedAsPassenger   (* 'Not authorized to rate this ride as passenger' *)
| AlreadyRatedDriver         (* 'You have already rated this driver' *)
| NotAuthorizedAsDriver      (* 'Not authorized to rate this passenger as driver' *)
| AlreadyRatedPassenger      (* 'You have already rated this passenger' *)
| RatingSubmitted (b : Booking.t)    (* 'Rating submitted successfully' *)
| ErrorSubmittingRating (e : Error).

(** [res.status(code).json({ message, ... })] *)
Record Response := reply { code : Z; message : Message }.

(** A handler step continues, returns after sending a reply, or throws; the
    store keeps every write made before a reply or a throw. *)
Inductive Outcome (A : Type) :=
| Next (a : A)
| Sent (r : Response)
| Thrown (e : Error).
Arguments Next {A} a.
Arguments Sent {A} r.
Arguments Thrown {A} e.

Definition Handler (A : Type) := DB -> DB * Outcome A.

Definition ret {A} (a : A) : Handler A := fun db => (db, Next a).

Definition bind {A B} (m : Handler A) (k : A -> Handler B) : Handler B :=
  fun db =>
    match m db with
    | (db', Next a) => k a db'
    | (db', Sent r) => (db', Sent r)
    | (db', Thrown e) => (db', Thrown e)
    end.

Notation "x <- m ;; k" := (bind m (fun x => k))
  (at level 100, m at next level, right associativity).
Notation "m ;;; k" := (bind m (fun _ => k))
  (at level 100, right associativity).

Definition send {A} (c : Z) (m : Message) : Handler A :=
  fun db => (db, Sent (reply c m)).

Definition throw {A} (e : Error) : Handler A := fun db => (db, Thrown e).

(** [if (cond) return res.status(c).json(m)] *)
Definition returnIf (cond : bool) (c : Z) (m : Message) : Handler unit :=
  if cond then send c m else ret tt.

(** [if (!x) return res.status(c).json(m)] on a value that may be missing *)
Definition orReturn {A} (o : option A) (c : Z) (m : Message) : Handler A :=
  match o with
  | Some a => ret a
  | None => send c m
  end.

(** Reading a property of [null] throws a [TypeError]. *)
Definition deref {A} (o : option A) : Handler A :=
  match o with
  | Some a => ret a
  | None => throw TypeError
  end.

Definition throwIf (cond : bool) (e : Error) : Handler unit :=
  if cond then throw e else ret tt.

(** [try { ... } catch (error) { res.status(500).json(...) }] *)
Definition tryCatch (h : Handler Response) (onError : Error -> Message)
  : DB -> DB * Response :=
  fun db =>
    match h db with
    | (db', Next r) => (db', r)
    | (db', Sent r) => (db', r)
    | (db', Thrown e) => (db', reply 500 (onError e))
    end.

(** [try { ... } catch (error) { console.error(...) }] *)
Definition swallow (h : Handler unit) : Handler unit :=
  fun db =>
    match h db with
    | (db', Thrown _) => (db', Next tt)
    | res => res
    end.

(** ** Queries and hooks of the two models *)

(** What [toString()] gives on a path that refers to a user.  Every [find]
    on the Ride model populates [driver] (the pre-find hook of [Ride.js]) and
    every [find] on the Booking model populates [passenger] (the pre-find hook
    of [Booking.js]): such a path holds the User document.  [doc._id] and
    the paths no query populates hold the ObjectId. *)
Inductive Printed :=
| printedId (id : ObjectId)          (* the 24 hexadecimal digits *)
| printedDocument (id : ObjectId).   (* '{ _id: new ObjectId(...), name: ... }' *)

(** [x.toString()] on an ObjectId *)
Definition ObjectId_toString (id : ObjectId) : Printed := printedId id.

(** [x.toString()] on the populated document of the user [id] *)
Definition Document_toString (id : ObjectId) : Printed := printedDocument id.

(** [printed === req.user.id]: the printed document is never an identifier. *)
Definition strictEq (printed : Printed) (userId : ObjectId) : bool :=
  match printed with
  | printedId id => String.eqb id userId
  | printedDocument _ => false
  end.

(** Ride [pre(/^find/)]: [this.find({ status: { $ne: 'cancelled' } })]. *)
Definition Ride_preFind (r : Ride.t) : bool :=
  negb (bool_decide (Ride.status r = Ride.cancelled)).

Definition Ride_findById (id : ObjectId) : Handler (option Ride.t) :=
  fun db =>
    (db, Next (match rides db !! id with
               | Some r => if Ride_preFind r then Some r else None
               | None => None
               end)).

(** [Ride.findByIdAndUpdate(id, update)]: no schema validation, no save hook. *)
Definition Ride_findByIdAndUpdate (id : ObjectId) (update : Ride.t -> Ride.t)
  : Handler unit :=
  fun db =>
    match rides db !! id with
    | Some r =>
        if Ride_preFind r
        then (mkDB (<[id := update r]> (rides db)) (bookings db), Next tt)
        else (db, Next tt)
    | None => (db, Next tt)
    end.

Definition Booking_findById (id : ObjectId) : Handler (option Booking.t) :=
  fun db => (db, Next (bookings db !! id)).

(** [.populate('ride')]: a [find] on the Ride model. *)
Definition populate_ride (b : Booking.t) : Handler (option Ride.t) :=
  Ride_findById (Booking.ride b).

(** [{ ride, passenger, status: { $in: ['confirmed', 'pending'] } }] *)
Definition activeBookingOf (rideId passengerId : ObjectId) (b : Booking.t) : bool :=
  String.eqb (Booking.ride b) rideId
  && String.eqb (Booking.passenger b) passengerId
  && Booking.isActive (Booking.status b).

Definition Booking_findOne (q : Booking.t -> bool) : Handler (option Booking.t) :=
  fun db => (db, Next (List.find q (map_to_list (bookings db)).*2)).

Definition Booking_updateMany (q : Booking.t -> bool) (update : Booking.t -> Booking.t)
  : Handler unit :=
  fun db =>
    (mkDB (rides db) ((fun b => if q b then update b else b) <$> bookings db),
     Next tt).

(** The setters of the Booking schema that act on what the handlers assign:
    [trim: true] on [pickupPoint.address]. *)
Definition Booking_cast (b : Booking.t) : Booking.t :=
  Booking.set_pickupAddress (Text.trim (Booking.pickupAddress b)) b.

(** Schema validators of the Booking paths that are required or written. *)
Definition Booking_validate (b : Booking.t) : Handler unit :=
  throwIf ((Booking.seatsBooked b <? 1) || (10 <? Booking.seatsBooked b))
          (ValidationError "seatsBooked") ;;;
  throwIf (negb (Qle_bool 0 (Booking.totalPrice b)))
          (ValidationError "totalPrice") ;;;
  throwIf (String.eqb (Booking.pickupAddress b) EmptyString)
          (ValidationError "pickupPoint.address").

(** Booking [pre('save')]: seat availability, checked for a new document or
    when [seatsBooked] was modified. *)
Definition Booking_preSave (b : Booking.t) (isNewOrSeatsModified : bool)
  : Handler unit :=
  if isNewOrSeatsModified then
    ride <- Ride_findById (Booking.ride b) ;;
    match ride with
    | None => throw RideNotFoundError
    | Some ride =>
        throwIf (Ride.availableSeats ride <? Booking.seatsBooked b)
                (OnlySeatsAvailableError (Ride.availableSeats ride)) ;;;
        throwIf (negb (bool_decide (Ride.status ride = Ride.active)))
                (CannotBookError (Ride.status ride))
    end
  else ret tt.

(** The roster entry the post-save hook adds: [user], [seats], [booking] and
    the sub-schema defaults.  Each cast entry carries an identifier of its
    own, so [$addToSet] never finds it present and appends. *)
Definition hookEntry (now : Date) (doc : Booking.t) : Ride.Passenger :=
  Ride.mkPassenger (Booking.passenger doc) now None (Booking.seatsBooked doc)
                   Ride.p_confirmed (Booking._id doc).

(** Booking [post('save')]: for a confirmed booking, [$inc] the seats of the
    ride and [$addToSet] the passenger. *)
Definition Booking_postSave (now : Date) (doc : Booking.t) : Handler unit :=
  if bool_decide (Booking.status doc = Booking.confirmed) then
    swallow
      (Ride_findByIdAndUpdate (Booking.ride doc)
         (fun r =>
            Ride.set_passengers (Ride.passengers r ++ [hookEntry now doc])
              (Ride.set_availableSeats
                 (Ride.availableSeats r + - Booking.seatsBooked doc) r)))
  else ret tt.

Definition Booking_write (b : Booking.t) : Handler unit :=
  fun db => (mkDB (rides db) (<[Booking._id b := b]> (bookings db)), Next tt).

(** [Booking.create(data)] *)
Definition Booking_create (now : Date) (data : Booking.t) : Handler Booking.t :=
  let data := Booking_cast data in
  Booking_validate data ;;;
  Booking_preSave data true ;;;
  clash <- Booking_findOne
             (activeBookingOf (Booking.ride data) (Booking.passenger data)) ;;
  throwIf (Booking.isActive (Booking.status data) && bool_decide (is_Some clash))
          DuplicateKeyError ;;;
  Booking_write data ;;;
  Booking_postSave now data ;;;
  ret data.

(** [booking.save()] on a loaded document whose [seatsBooked] is untouched. *)
Definition Booking_save (now : Date) (b : Booking.t) : Handler unit :=
  Booking_validate b ;;;
  Booking_preSave b false ;;;
  Booking_write b ;;;
  Booking_postSave now b.

(** Schema validators of the Ride paths that are required or written. *)
Definition Ride_validate (r : Ride.t) : Handler unit :=
  throwIf ((Ride.availableSeats r <? 1) || (10 <? Ride.availableSeats r))
          (ValidationError "availableSeats") ;;;
  throwIf (negb (Qle_bool 10 (Ride.pricePerSeat r))
           || negb (Qle_bool (Ride.pricePerSeat r) 5000))
          (ValidationError "pricePerSeat") ;;;
  throwIf (existsb (fun p => (Ride.seats p <? 1) || (4 <? Ride.seats p))
                   (Ride.passengers r))
          (ValidationError "passengers.seats").

(** How a handler changed the roster of the document it saves. *)
Inductive RosterChange :=
| Untouched
| Pushed (p : Ride.Passenger)      (* [ride.passengers.push(p)] *)
| Assigned.                        (* [ride.passengers = ...] *)

(** [ride.save()]: validation, the pre-save hook [updateStatus], then the
    write of the modified paths into the stored document; a push reaches the
    stored roster as a [$push], an assignment replaces it. *)
Definition Ride_save (now : Date) (r : Ride.t) (change : RosterChange)
  : Handler Ride.t :=
  Ride_validate r ;;;
  let r := Ride.updateStatus now r in
  fun db =>
    match rides db !! Ride._id r with
    | None => (db, Thrown DocumentNotFoundError)
    | Some stored =>
        let roster :=
          match change with
          | Untouched => Ride.passengers stored
          | Pushed p => Ride.passengers stored ++ [p]
          | Assigned => Ride.passengers r
          end in
        (mkDB (<[Ride._id r := Ride.set_passengers roster r]> (rides db))
              (bookings db),
         Next r)
    end.

(** ** [bookRide], [backend/controllers/rideController.js]

    The seat count is tested as it comes ([!seats || seats < 1]) and read
    through [parseInt] everywhere else.  The guard on the driver prints
    [ride.driver._id], an ObjectId. *)

Record PickupPoint := { address : string }.

Record BookRideRequest := {
  br_rideId : ObjectId;           (* req.params.rideId *)
  br_user : ObjectId;             (* req.user.id *)
  br_seats : option Z;            (* req.body.seats *)
  br_pickupPoint : option PickupPoint;   (* req.body.pickupPoint *)
  br_newId : ObjectId             (* the _id the new booking receives *)
}.

Definition bookRide (now : Date) (req : BookRideRequest) : DB -> DB * Response :=
  tryCatch
    (seats <- orReturn (br_seats req) 400 InvalidSeats ;;
     returnIf ((seats =? 0) || (seats <? 1)) 400 InvalidSeats ;;;
     pickupPoint <- orReturn (br_pickupPoint req) 400 MissingPickupPoint ;;
     found <- Ride_findById (br_rideId req) ;;
     ride <- orReturn found 404 RideNotFound ;;
     returnIf (negb (bool_decide (Ride.status ride = Ride.active)))
              400 (CannotBookRide (Ride.status ride)) ;;;
     returnIf (Ride.availableSeats ride <? Js.parseIntNumber seats)
              400 (NotEnoughSeats (Ride.availableSeats ride)) ;;;
     returnIf (strictEq (ObjectId_toString (Ride.driver ride)) (br_user req))
              400 OwnRide ;;;
     existingBooking <- Booking_findOne
                          (activeBookingOf (br_rideId req) (br_user req)) ;;
     returnIf (bool_decide (is_Some existingBooking)) 400 AlreadyBooked ;;;
     let totalPrice :=
       (inject_Z (Js.parseIntNumber seats) * Ride.pricePerSeat ride)%Q in
     booking <- Booking_create now
                  (Booking.mk (br_newId req) (br_rideId req) (br_user req)
                     (Js.parseIntNumber seats) totalPrice (address pickupPoint)
                     Booking.confirmed now Booking.pay_pending None None) ;;
     let ride := Ride.set_availableSeats
                   (Ride.availableSeats ride - Js.parseIntNumber seats) ride in
     let entry := Ride.mkPassenger (br_user req) now (Some (address pickupPoint))
                    (Js.parseIntNumber seats) Ride.p_confirmed
                    (Booking._id booking) in
     let ride := Ride.set_passengers (Ride.passengers ride ++ [entry]) ride in
     let ride := if Ride.availableSeats ride =? 0
                 then Ride.set_status Ride.full ride else ride in
     Ride_save now ride (Pushed entry) ;;;
     ret (reply 200 (RideBooked booking)))
    ErrorBookingRide.

(** ** [cancelRide]

    [ride.driver] is the User document the pre-find hook populated: the
    guard prints the document, not its identifier. *)

Record CancelRideRequest := {
  cr_rideId : ObjectId;
  cr_user : ObjectId
}.

Definition cancelRide (now : Date) (req : CancelRideRequest) : DB -> DB * Response :=
  tryCatch
    (found <- Ride_findById (cr_rideId req) ;;
     ride <- orReturn found 404 RideNotFound ;;
     returnIf (negb (strictEq (Document_toString (Ride.driver ride))
                              (cr_user req)))
              403 NotAuthorizedCancelRide ;;;
     Booking_updateMany
       (fun b => String.eqb (Booking.ride b) (Ride._id ride)
                 && bool_decide (Booking.status b = Booking.confirmed))
       (Booking.set_status Booking.cancelled) ;;;
     let ride := Ride.set_status Ride.cancelled ride in
     ride <- Ride_save now ride Untouched ;;
     ret (reply 200 (RideCancelled ride)))
    ErrorCancellingRide.

(** ** [cancelBooking]

    [booking.passenger] is the User document the pre-find hook of the Booking
    model populated: the guard prints the document, not its identifier.  The
    [user] of a roster entry is an ObjectId. *)

Record CancelBookingRequest := {
  cb_bookingId : ObjectId;
  cb_user : ObjectId
}.

Definition cancelBooking (now : Date) (req : CancelBookingRequest)
  : DB -> DB * Response :=
  tryCatch
    (found <- Booking_findById (cb_bookingId req) ;;
     booking <- orReturn found 404 BookingNotFound ;;
     populated <- populate_ride booking ;;
     returnIf (negb (strictEq (Document_toString (Booking.passenger booking))
                              (cb_user req)))
              403 NotAuthorizedCancelBooking ;;;
     let booking := Booking.set_status Booking.cancelled booking in
     Booking_save now booking ;;;
     bookingRide <- deref populated ;;
     found <- Ride_findById (Ride._id bookingRide) ;;
     ride <- deref found ;;
     let ride := Ride.set_availableSeats
                   (Ride.availableSeats ride + Booking.seatsBooked booking) ride in
     let ride := Ride.set_passengers
                   (List.filter
                      (fun p => negb (strictEq (ObjectId_toString (Ride.user p))
                                               (cb_user req)))
                      (Ride.passengers ride)) ride in
     let ride := if bool_decide (Ride.status ride = Ride.full)
                 then Ride.set_status Ride.active ride else ride in
     Ride_save now ride Assigned ;;;
     ret (reply 200 (BookingCancelled booking)))
    ErrorCancellingBooking.

(** ** [submitRating], [backend/controllers/ratingController.js] *)

Record RatingRequest := {
  rt_bookingId : ObjectId;        (* req.params.bookingId *)
  rt_user : ObjectId;             (* req.user.id *)
  rt_rating : option Z;           (* req.body.rating *)
  rt_ratedUserType : option string    (* req.body.ratedUserType *)
}.

(** Truthiness of [booking.driverRating] and [booking.passengerRating]:
    nested paths of the schema, which read as an object whatever their
    [rating] holds. *)
Definition isRated (rating : option Z) : bool := true.

(** The handler up to its reply; the refresh of the rated user's average,
    [updateUserRating], only touches the users collection, which is not part
    of the store.  [booking.passenger._id] is an ObjectId;
    [booking.ride.driver] is the User document the pre-find hook of the Ride
    model populated when [populate] queried the ride.  The assignments to
    the rating slots stand behind tests that always reply. *)
Definition submitRating (now : Date) (req : RatingRequest) : DB -> DB * Response :=
  tryCatch
    (rating <- orReturn (rt_rating req) 400 MissingRatingFields ;;
     ratedUserType <- orReturn (rt_ratedUserType req) 400 MissingRatingFields ;;
     returnIf ((rating =? 0) || String.eqb ratedUserType EmptyString)
              400 MissingRatingFields ;;;
     returnIf ((rating <? 1) || (5 <? rating)) 400 RatingOutOfRange ;;;
     returnIf (negb (String.eqb ratedUserType "driver"
                     || String.eqb ratedUserType "rider"))
              400 BadRatedUserType ;;;
     found <- Booking_findById (rt_bookingId req) ;;
     booking <- orReturn found 404 BookingNotFound ;;
     populated <- populate_ride booking ;;
     bookingRide <- deref populated ;;
     returnIf (negb (bool_decide (Ride.status bookingRide = Ride.completed)))
              400 OnlyCompletedRides ;;;
     booking <-
       (if String.eqb ratedUserType "driver" then
          returnIf (negb (strictEq (ObjectId_toString (Booking.passenger booking))
                                   (rt_user req)))
                   403 NotAuthorizedAsPassenger ;;;
          returnIf (isRated (Booking.driverRating booking))
                   400 AlreadyRatedDriver ;;;
          ret (Booking.set_driverRating (Some rating) booking)
        else
          returnIf (negb (strictEq (Document_toString (Ride.driver bookingRide))
                                   (rt_user req)))
                   403 NotAuthorizedAsDriver ;;;
          returnIf (isRated (Booking.passengerRating booking))
                   400 AlreadyRatedPassenger ;;;
          ret (Booking.set_passengerRating (Some rating) booking)) ;;
     Booking_save now booking ;;;
     ret (reply 200 (RatingSubmitted booking)))
    ErrorSubmittingRating.

(** ** Further methods of the Ride model, [backend/models/Ride.js] *)

Module RideMethods.

(** What the instance methods throw. *)
Inductive MethodError :=
| RideIsFull                        (* Error('Ride is full') *)
| OnlySeatsLeft (n : Z)             (* Error(`Only ${remainingSeats} seats available`) *)
| AlreadyPassenger                  (* Error('User is already a passenger') *)
| PassengerNotFound.                (* Error('Passenger not found') *)

(** method [addPassenger]; the pushed entry takes the sub-schema default
    [bookedAt]. *)
Definition addPassenger (now : Date) (userId : ObjectId) (seats : Z)
    (pickupPoint : option string) (bookingId : ObjectId) (r : Ride.t)
  : MethodError + Ride.t :=
  if Ride.isFull r then inl RideIsFull
  else if Ride.remainingSeats r <? seats
  then inl (OnlySeatsLeft (Ride.remainingSeats r))
  else if Ride.isPassenger r userId then inl AlreadyPassenger
  else
    let entry := Ride.mkPassenger userId now pickupPoint seats
                   Ride.p_confirmed bookingId in
    inr (Ride.updateStatus now
           (Ride.set_passengers (Ride.passengers r ++ [entry]) r)).

Definition set_pstatus (st : Ride.PassengerStatus) (p : Ride.Passenger)
  : Ride.Passenger :=
  Ride.mkPassenger (Ride.user p) (Ride.bookedAt p) (Ride.pickupPoint p)
                   (Ride.seats p) st (Ride.booking p).

(** [passengers[findIndex(p => p.user === userId)].status = 'cancelled'];
    [None] when [findIndex] answers -1. *)
Fixpoint cancelFirst (userId : ObjectId) (l : list Ride.Passenger)
  : option (list Ride.Passenger) :=
  match l with
  | [] => None
  | p :: l' =>
      if String.eqb (Ride.user p) userId
      then Some (set_pstatus Ride.p_cancelled p :: l')
      else option_map (cons p) (cancelFirst userId l')
  end.

(** method [removePassenger] *)
Definition removePassenger (now : Date) (userId : ObjectId) (r : Ride.t)
  : MethodError + Ride.t :=
  match cancelFirst userId (Ride.passengers r) with
  | None => inl PassengerNotFound
  | Some l => inr (Ride.updateStatus now (Ride.set_passengers l r))
  end.

(** method [canBeCancelled] of a ride: more than two hours ahead and
    active; with an invalid departure instant the difference is [NaN] and the
    comparison false. *)
Definition canBeCancelled (r : Ride.t) (now : Date) : bool :=
  match Ride.rideDateTime r with
  | Some rideDateTime =>
      let hoursUntilRide :=
        (inject_Z (rideDateTime - now) / inject_Z (1000 * 60 * 60))%Q in
      Booking.Qgtb hoursUntilRide 2 && bool_decide (Ride.status r = Ride.active)
  | None => false
  end.

(** method [getConfirmedPassengersCount] *)
Definition getConfirmedPassengersCount (r : Ride.t) : nat :=
  length (List.filter (fun p => bool_decide (Ride.pstatus p = Ride.p_confirmed))
                      (Ride.passengers r)).

End RideMethods.

(** ** [updateRideStatus] and [getAvailableSeats],
       [backend/controllers/rideController.js] *)

(** The outcome of store operations inside a [try] block: a value or a
    throw.  Store operations send no reply of their own. *)
Definition settle {A} (h : Handler A) (db : DB) : DB * (Error + A) :=
  match h db with
  | (db', Next a) => (db', inr a)
  | (db', Thrown e) => (db', inl e)
  | (db', Sent _) => (db', inl TypeError)
  end.

Inductive StatusMessage :=
| InvalidStatus                     (* 'Invalid status' *)
| StatusRideNotFound                (* 'Ride not found' *)
| NotAuthorizedUpdate               (* 'Not authorized to update this ride' *)
| StatusUpdated (st : Ride.Status) (r : Ride.t)
                                    (* `Ride status updated to ${status}` *)
| ErrorUpdatingStatus (e : Error).  (* 'Error updating ride status' *)

Record UpdateStatusRequest := {
  us_rideId : ObjectId;             (* req.params.rideId *)
  us_user : ObjectId;               (* req.user.id *)
  us_status : option string         (* req.body.status *)
}.

(** [['active', 'completed', 'cancelled'].includes(status)] *)
Definition requestedStatus (s : option string) : option Ride.Status :=
  match s with
  | Some s =>
      if String.eqb s "active" then Some Ride.active
      else if String.eqb s "completed" then Some Ride.completed
      else if String.eqb s "cancelled" then Some Ride.cancelled
      else None
  | None => None
  end.

(** As in [cancelRide], the guard prints the populated driver document. *)
Definition updateRideStatus (now : Date) (req : UpdateStatusRequest) (db : DB)
  : DB * (Z * StatusMessage) :=
  match requestedStatus (us_status req) with
  | None => (db, (400, InvalidStatus))
  | Some status =>
      match settle (Ride_findById (us_rideId req)) db with
      | (db1, inr (Some ride)) =>
          if negb (strictEq (Document_toString (Ride.driver ride)) (us_user req))
          then (db1, (403, NotAuthorizedUpdate))
          else
            match settle
                    ((if bool_decide (status = Ride.completed)
                      then Booking_updateMany
                             (fun b => String.eqb (Booking.ride b) (us_rideId req)
                                       && bool_decide
                                            (Booking.status b = Booking.confirmed))
                             (Booking.set_status Booking.completed)
                      else ret tt) ;;;
                     Ride_save now (Ride.set_status status ride) Untouched)
                    db1 with
            | (db2, inr saved) => (db2, (200, StatusUpdated status saved))
            | (db2, inl e) => (db2, (500, ErrorUpdatingStatus e))
            end
      | (db1, inr None) => (db1, (404, StatusRideNotFound))
      | (db1, inl e) => (db1, (500, ErrorUpdatingStatus e))
      end
  end.

Inductive SeatsMessage :=
| SeatsRideNotFound                           (* 'Ride not found' *)
| Seats (availableSeats totalSeats : Z)       (* data of the 200 reply *)
| ErrorFetchingSeats (e : Error).             (* 'Error fetching available seats' *)

Definition getAvailableSeats (rideId : ObjectId) (db : DB)
  : DB * (Z * SeatsMessage) :=
  match settle (Ride_findById rideId) db with
  | (db1, inr (Some ride)) =>
      (db1, (200, Seats (Ride.availableSeats ride)
                        (Ride.availableSeats ride
                         + Z.of_nat (length (Ride.passengers ride)))))
  | (db1, inr None) => (db1, (404, SeatsRideNotFound))
  | (db1, inl e) => (db1, (500, ErrorFetchingSeats e))
  end.

(** ** The schema validators as predicates *)

Definition Ride_isValid (r : Ride.t) : bool :=
  (1 <=? Ride.availableSeats r) && (Ride.availableSeats r <=? 10)
  && Qle_bool 10 (Ride.pricePerSeat r) && Qle_bool (Ride.pricePerSeat r) 5000
  && forallb (fun p => (1 <=? Ride.seats p) && (Ride.seats p <=? 4))
             (Ride.passengers r).

Definition Booking_isValid (b : Booking.t) : bool :=
  (1 <=? Booking.seatsBooked b) && (Booking.seatsBooked b <=? 10)
  && Qle_bool 0 (Booking.totalPrice b)
  && negb (String.eqb (Booking.pickupAddress b) EmptyString).

(** ** Search helpers, [backend/controllers/rideController.js] *)

Module Search.

(** [text.toLowerCase().trim().replace(/\s+/g, ' ')] *)
Definition normalize (text : string) : string :=
  Text.collapse false (Text.trim (Text.toLowerCase text)).

(** [norm.split(/\s+/).filter(word => word.length >= 2)] *)
Definition meaningfulWords (norm : string) : list string :=
  List.filter (fun word => (2 <=? String.length word)%nat)
              (Text.splitSpaces norm EmptyString false).

(** [rideWord.includes(searchWord) || searchWord.includes(rideWord)] *)
Definition wordMatch (searchWord rideWord : string) : bool :=
  Text.includes rideWord searchWord || Text.includes searchWord rideWord.

Definition enhancedFuzzyMatch (searchText rideText : string) : bool :=
  if String.eqb searchText EmptyString || String.eqb rideText EmptyString
  then false
  else
    let searchNorm := normalize searchText in
    let rideNorm := normalize rideText in
    if String.eqb searchNorm rideNorm then true
    else if Text.includes rideNorm searchNorm || Text.includes searchNorm rideNorm
    then true
    else
      let searchWords := meaningfulWords searchNorm in
      let rideWords := meaningfulWords rideNorm in
      if (List.length searchWords =? 0)%nat || (List.length rideWords =? 0)%nat
      then false
      else
        let matchingWords :=
          fold_left
            (fun count searchWord =>
               if existsb (wordMatch searchWord) rideWords
               then count + 1 else count)
            searchWords 0 in
        0 <? matchingWords.

(** A ride document with the two address paths the search reads. *)
Record Listing := {
  listed : Ride.t;
  from_address : string;          (* ride.from.address *)
  to_address : string             (* ride.to.address *)
}.

Definition fuzzyLocationMatch (rides : list Listing) (searchFrom searchTo : string)
  : list Listing :=
  let searchFromLower := Text.trim (Text.toLowerCase searchFrom) in
  let searchToLower := Text.trim (Text.toLowerCase searchTo) in
  List.filter
    (fun ride =>
       let rideFrom := Text.toLowerCase (from_address ride) in
       let rideTo := Text.toLowerCase (to_address ride) in
       let fromMatch := enhancedFuzzyMatch searchFromLower rideFrom in
       let toMatch := enhancedFuzzyMatch searchToLower rideTo in
       fromMatch && toMatch)
    rides.

(** [Math.abs((rideDate - today) / (1000 * 60 * 60 * 24))] *)
Definition daysDiff (rideDate today : Date) : Q :=
  Qabs (inject_Z (rideDate - today) / inject_Z (1000 * 60 * 60 * 24)).

Definition calculateMatchScore (today : Date) (ride : Listing)
    (searchFrom searchTo : string) : Z :=
  let score := 0 in
  let rideFrom := Text.toLowerCase (from_address ride) in
  let rideTo := Text.toLowerCase (to_address ride) in
  let searchFromLower := Text.toLowerCase searchFrom in
  let searchToLower := Text.toLowerCase searchTo in
  let score := if String.eqb rideFrom searchFromLower then score + 50 else score in
  let score := if String.eqb rideTo searchToLower then score + 50 else score in
  let score := if Text.includes rideFrom searchFromLower then score + 30 else score in
  let score := if Text.includes rideTo searchToLower then score + 30 else score in
  let score := if enhancedFuzzyMatch searchFromLower rideFrom
               then score + 20 else score in
  let score := if enhancedFuzzyMatch searchToLower rideTo
               then score + 20 else score in
  let daysDiff := daysDiff (Ride.date (listed ride)) today in
  if Qle_bool daysDiff 1 then score + 20
  else if Qle_bool daysDiff 3 then score + 10
  else score.

(** The matching step of [searchRides] on the rides its query returned:
    [matchedRides], and [finalResults] with the fallback. *)
Definition matchedRides (rides : list Listing) (from to : string) : list Listing :=
  List.filter
    (fun ride =>
       let fromMatch := enhancedFuzzyMatch from (from_address ride) in
       let toMatch := enhancedFuzzyMatch to (to_address ride) in
       fromMatch && toMatch)
    rides.

Definition finalResults (rides : list Listing) (from to : string) : list Listing :=
  let matched := matchedRides rides from to in
  if (List.length matched =? 0)%nat then fuzzyLocationMatch rides from to
  else matched.

End Search.

(** ** Reading the store *)

(** The ride as [bookRide] hands it to [save]: seats taken off, the entry
    pushed, 'full' assigned when the counter reaches 0. *)
Definition bookedRide (entry : Ride.Passenger) (n : Z) (r : Ride.t) : Ride.t :=
  let r1 := Ride.set_availableSeats (Ride.availableSeats r - n) r in
  let r2 := Ride.set_passengers (Ride.passengers r1 ++ [entry]) r1 in
  if Ride.availableSeats r2 =? 0 then Ride.set_status Ride.full r2 else r2.


(** What the post-save hook of a confirmed booking does to the stored ride. *)
Definition hookedRide (now : Date) (doc : Booking.t) (r : Ride.t) : Ride.t :=
  Ride.set_passengers (Ride.passengers r ++ [hookEntry now doc])
    (Ride.set_availableSeats (Ride.availableSeats r + - Booking.seatsBooked doc) r).

(** The [bookingData] of [bookRide] for [n] seats, the booking
    [Booking.create] makes of it, and the roster entry the handler pushes. *)
Definition bookingData (now : Date) (req : BookRideRequest) (n : Z)
    (p : PickupPoint) (r : Ride.t) : Booking.t :=
  Booking.mk (br_newId req) (br_rideId req) (br_user req) n
    (inject_Z n * Ride.pricePerSeat r)%Q (address p) Booking.confirmed now
    Booking.pay_pending None None.

Definition newBooking (now : Date) (req : BookRideRequest) (n : Z)
    (p : PickupPoint) (r : Ride.t) : Booking.t :=
  Booking_cast (bookingData now req n p r).

Definition pushedEntry (now : Date) (req : BookRideRequest) (n : Z)
    (p : PickupPoint) : Ride.Passenger :=
  Ride.mkPassenger (br_user req) now (Some (address p)) n Ride.p_confirmed
                   (br_newId req).


(** Seats held by the entries of a roster that are confirmed or pending. *)
Definition heldSeats (l : list Ride.Passenger) : Z :=
  fold_left (fun total p => total + Ride.seats p) (List.filter Ride.holdsSeats l) 0.


Definition seatsOf (db : DB) (rideId : ObjectId) : option Z :=
  Ride.availableSeats <$> rides db !! rideId.

Definition bookedOf (db : DB) (rideId : ObjectId) : option Z :=
  Ride.bookedSeats <$> rides db !! rideId.

Definition rideStatusOf (db : DB) (rideId : ObjectId) : option Ride.Status :=
  Ride.status <$> rides db !! rideId.

Definition bookingStatusOf (db : DB) (bookingId : ObjectId) : option Booking.Status :=
  Booking.status <$> bookings db !! bookingId.

(** ** Sample documents *)

Module Sample.

Definition day : Z := Js.msPerDay.

(** A ride of three seats at 100 per seat, leaving on day 30 at 09:30. *)
Definition ride0 : Ride.t :=
  Ride.mk "r1" "driver" (30 * day) "09:30" 3 100 [] Ride.active None.

Definition db0 : DB := mkDB {[ "r1" := ride0 ]} ∅.

Definition book (user newId : string) (n : Z) : BookRideRequest :=
  Build_BookRideRequest "r1" user (Some n) (Some {| address := "Main gate" |})
                        newId.

Definition cancel (user bookingId : string) : CancelBookingRequest :=
  Build_CancelBookingRequest bookingId user.

(** The clock: day 1 for every booking request. *)
Definition t0 : Z := 1 * day.

Definition bookingOf (id user : string) (n : Z) (st : Booking.Status) : Booking.t :=
  Booking.mk id "r1" user n (inject_Z n * 100)%Q "Main gate" st t0
             Booking.pay_pending None None.

(** The store once passenger A holds two of the three seats: one seat is
    left, the roster carries the entry of the post-save hook and the entry
    the handler pushed, and the pre-save hook has marked the ride full. *)
Definition rideA2 : Ride.t :=
  Ride.mk "r1" "driver" (30 * day) "09:30" 1 100
    [ Ride.mkPassenger "A" t0 None 2 Ride.p_confirmed "b1";
      Ride.mkPassenger "A" t0 (Some "Main gate") 2 Ride.p_confirmed "b1" ]
    Ride.full None.

Definition dbA2 : DB :=
  mkDB {[ "r1" := rideA2 ]} {[ "b1" := bookingOf "b1" "A" 2 Booking.confirmed ]}.

(** The store once passenger A holds one of the three seats. *)
Definition rideA1 : Ride.t :=
  Ride.mk "r1" "driver" (30 * day) "09:30" 2 100
    [ Ride.mkPassenger "A" t0 None 1 Ride.p_confirmed "b1";
      Ride.mkPassenger "A" t0 (Some "Main gate") 1 Ride.p_confirmed "b1" ]
    Ride.active None.

Definition dbA1 : DB :=
  mkDB {[ "r1" := rideA1 ]} {[ "b1" := bookingOf "b1" "A" 1 Booking.confirmed ]}.

(** A clock reading after the ride has left. *)
Definition tLate : Z := 31 * day.

(** After the ride: the ride stands at status [st], the one-seat booking of A
    has been marked completed; [rated] is what [driverRating.rating] of the
    booking holds, if anything. *)
Definition rideDone (st : Ride.Status) : Ride.t :=
  Ride.mk "r1" "driver" (30 * day) "09:30" 2 100
    [ Ride.mkPassenger "A" t0 None 1 Ride.p_confirmed "b1";
      Ride.mkPassenger "A" t0 (Some "Main gate") 1 Ride.p_confirmed "b1" ]
    st (Some tLate).

Definition bookingDone (rated : option Z) : Booking.t :=
  Booking.set_driverRating rated (bookingOf "b1" "A" 1 Booking.completed).

Definition dbDone (st : Ride.Status) (rated : option Z) : DB :=
  mkDB {[ "r1" := rideDone st ]} {[ "b1" := bookingDone rated ]}.

Definition rate (user : string) (n : Z) (ty : string) : RatingRequest :=
  Build_RatingRequest "b1" user (Some n) (Some ty).

End Sample.

(** * Proofs *)

(** ** Status derivation *)

(** Setters of [status] and [rideCompletedAt] leave the inputs of the
    virtuals alone. *)
Section RideSetters.
Variables (r : Ride.t) (s : Ride.Status) (c : option Date) (now : Date).

Lemma isFull_set_status : Ride.isFull (Ride.set_status s r) = Ride.isFull r.
Proof. reflexivity. Qed.

Lemma isFull_set_rideCompletedAt :
  Ride.isFull (Ride.set_rideCompletedAt c r) = Ride.isFull r.
Proof. reflexivity. Qed.

Lemma isPast_set_status : Ride.isPast (Ride.set_status s r) now = Ride.isPast r now.
Proof. reflexivity. Qed.

Lemma status_set_status : Ride.status (Ride.set_status s r) = s.
Proof. reflexivity. Qed.

Lemma status_set_rideCompletedAt :
  Ride.status (Ride.set_rideCompletedAt c r) = Ride.status r.
Proof. reflexivity. Qed.
End RideSetters.

Ltac ride_setters :=
  rewrite ?isFull_set_rideCompletedAt, ?isFull_set_status, ?isPast_set_status,
    ?status_set_rideCompletedAt, ?status_set_status.

Ltac decide_status :=
  repeat first
    [ rewrite bool_decide_eq_true_2 by congruence
    | rewrite bool_decide_eq_false_2 by congruence ].

Ltac unfold_handler :=
  unfold tryCatch, bind, orReturn, returnIf, deref, send, ret,
    populate_ride, Ride_findById, Booking_findById, Booking_findOne,
    strictEq, ObjectId_toString, Document_toString.

(** Boolean tests of the handlers, read back as propositions. *)
Ltac bools :=
  unfold Ride_preFind in *;
  repeat match goal with
    | H : negb _ = true |- _ => apply negb_true_iff in H
    | H : negb _ = false |- _ => apply negb_false_iff in H
    | H : _ || _ = true |- _ => apply orb_true_iff in H
    | H : _ || _ = false |- _ => apply orb_false_iff in H; destruct H
    | H : _ && _ = true |- _ => apply andb_true_iff in H; destruct H
    | H : bool_decide _ = true |- _ => apply bool_decide_eq_true_1 in H
    | H : bool_decide _ = false |- _ => apply bool_decide_eq_false_1 in H
    | H : (_ =? _) = true |- _ => apply Z.eqb_eq in H
    | H : (_ =? _) = false |- _ => apply Z.eqb_neq in H
    | H : (_ <? _) = true |- _ => apply Z.ltb_lt in H
    | H : (_ <? _) = false |- _ => apply Z.ltb_ge in H
    | H : (_ =? _)%string = true |- _ => apply String.eqb_eq in H
    | H : (_ =? _)%string = false |- _ => apply String.eqb_neq in H
    end.

(** Closes the branch of a guard that replied. *)
Ltac replied :=
  cbn; repeat split; auto; intros; simplify_eq; bools;
  solve [ lia | congruence | tauto | intuition (lia || congruence) ].

(** C7.  Re-deriving the status of a ride at a fixed clock reading is
    idempotent: a second [updateStatus] changes neither the status nor any
    other field of the document. *)
Theorem updateStatus_idempotent (now : Date) (r : Ride.t) :
  Ride.status (Ride.updateStatus now (Ride.updateStatus now r))
    = Ride.status (Ride.updateStatus now r)
  /\ Ride.updateStatus now (Ride.updateStatus now r) = Ride.updateStatus now r.
Proof.
  assert (H : Ride.updateStatus now (Ride.updateStatus now r)
              = Ride.updateStatus now r).
  { unfold Ride.updateStatus; cbv zeta.
    destruct (Ride.isFull r) eqn:Hfull.
    - (* the roster is full: both passes write 'full' *)
      repeat (ride_setters; rewrite ?Hfull, ?andb_false_r; decide_status;
              cbn [andb negb]).
      reflexivity.
    - destruct (Ride.isPast r now) eqn:Hpast, (Ride.status r) eqn:Hst;
        repeat (ride_setters; rewrite ?Hfull, ?Hpast, ?Hst, ?andb_false_r;
                decide_status; cbn [andb negb]);
        reflexivity. }
  split; [now rewrite H | exact H].
Qed.

(** ** Refund tiers *)

Lemma Qgtb_lt (a b : Q) : Booking.Qgtb a b = true <-> (b < a)%Q.
Proof.
  unfold Booking.Qgtb. rewrite negb_true_iff, <- not_true_iff_false, Qle_bool_iff.
  split; [apply Qnot_le_lt | apply Qlt_not_le].
Qed.

Lemma Qgtb_le (a b : Q) : Booking.Qgtb a b = false <-> (a <= b)%Q.
Proof.
  unfold Booking.Qgtb. now rewrite negb_false_iff, Qle_bool_iff.
Qed.

Lemma Qgtb_proper (a a' b : Q) : (a == a')%Q -> Booking.Qgtb a b = Booking.Qgtb a' b.
Proof.
  intros E. destruct (Booking.Qgtb a' b) eqn:H.
  - apply Qgtb_lt. apply Qgtb_lt in H. now rewrite E.
  - apply Qgtb_le. apply Qgtb_le in H. now rewrite E.
Qed.

(** The hours the code measures, [ms / (1000 * 60 * 60)], compared with a
    whole number of hours. *)
Lemma hours_gt (z k : Z) :
  Booking.Qgtb (inject_Z z / inject_Z (1000 * 60 * 60)) (inject_Z k) = true
  <-> k * 3600000 < z.
Proof.
  change (1000 * 60 * 60) with 3600000.
  unfold Booking.Qgtb, Qle_bool, Qdiv, Qmult, Qinv, inject_Z. cbn.
  rewrite negb_true_iff, Z.leb_gt. lia.
Qed.

Lemma hours_le (z k : Z) :
  Booking.Qgtb (inject_Z z / inject_Z (1000 * 60 * 60)) (inject_Z k) = false
  <-> z <= k * 3600000.
Proof.
  change (1000 * 60 * 60) with 3600000.
  unfold Booking.Qgtb, Qle_bool, Qdiv, Qmult, Qinv, inject_Z. cbn.
  rewrite negb_false_iff, Z.leb_le. lia.
Qed.

(** [calculateRefund] on a cancelled booking with its ride populated, read
    in milliseconds. *)
Lemma calculateRefund_ms (b : Booking.t) (d now : Date) :
  Booking.status b = Booking.cancelled ->
  Booking.calculateRefund b (Booking.populatedWith d) now
  = if 24 * 3600000 <? d - now then Booking.returns (Booking.totalPrice b)
    else if 2 * 3600000 <? d - now
         then Booking.returns (Booking.totalPrice b * (1 # 2))%Q
         else Booking.returns 0%Q.
Proof.
  intros Hst. unfold Booking.calculateRefund, Booking.hoursUntilRide.
  rewrite Hst. decide_status. cbn [negb Booking.rideDateOf]. cbv zeta.
  change 24%Q with (inject_Z 24). change 2%Q with (inject_Z 2).
  destruct (24 * 3600000 <? d - now) eqn:H24.
  - apply Z.ltb_lt in H24. now rewrite (proj2 (hours_gt (d - now) 24) H24).
  - apply Z.ltb_ge in H24. rewrite (proj2 (hours_le (d - now) 24) H24).
    destruct (2 * 3600000 <? d - now) eqn:H2.
    + apply Z.ltb_lt in H2. now rewrite (proj2 (hours_gt (d - now) 2) H2).
    + apply Z.ltb_ge in H2. now rewrite (proj2 (hours_le (d - now) 2) H2).
Qed.

Lemma calculateRefund_not_due (b : Booking.t) (ride : Booking.RidePath) (now : Date) :
  Booking.status b <> Booking.cancelled ->
  Booking.calculateRefund b ride now = Booking.returns 0%Q.
Proof.
  intros Hst. unfold Booking.calculateRefund.
  now rewrite (bool_decide_eq_false_2 _ Hst).
Qed.


(** The evaluation behind the counterexample: 25 hours before the departure
    of 09:30 the specification refunds 500 and the code 250. *)
Lemma calculateRefund_departure_evaluated :
  let departure := 30 * Sample.day + 9 * Js.msPerHour + 30 * Js.msPerMinute in
  let now := departure - 25 * Js.msPerHour in
  Ride.rideDateTime Sample.ride0 = Some departure
  /\ (refundPolicy 500 (inject_Z (departure - now) / inject_Z 3600000) == 500)%Q
  /\ exists refund,
      Booking.calculateRefund (Sample.bookingOf "b1" "A" 5 Booking.cancelled)
        (Booking.populatedWith (Ride.date Sample.ride0)) now
      = Booking.returns refund
      /\ (refund == 250)%Q.
Proof.
  split; [reflexivity|]. split; [reflexivity|].
  eexists. split; reflexivity.
Qed.



(** ** Guards of [bookRide] *)

(** [!seats || seats < 1] on a whole number *)
Lemma seats_guard (n : Z) : (n =? 0) || (n <? 1) = (n <? 1).
Proof.
  destruct (n =? 0) eqn:E; [|reflexivity].
  apply Z.eqb_eq in E. now subst.
Qed.

Lemma firstDigit_bounds (fuel : nat) (n : Z) :
  1 <= n -> 1 <= Js.firstDigit fuel n <= n.
Proof.
  revert n. induction fuel as [|fuel IH]; intros n Hn; cbn [Js.firstDigit]; [lia|].
  destruct (n <? 10) eqn:H10; [lia|].
  apply Z.ltb_ge in H10.
  assert (1 <= n / 10) by (apply Z.div_le_lower_bound; lia).
  assert (n / 10 <= n) by (apply Z.div_le_upper_bound; lia).
  specialize (IH (n / 10) ltac:(assumption)). lia.
Qed.

(** Below 1e21 [parseInt] gives back the whole number it is applied to. *)
Lemma parseIntNumber_small (n : Z) :
  Z.abs n < 10 ^ 21 -> Js.parseIntNumber n = n.
Proof.
  intros H. unfold Js.parseIntNumber. now rewrite (proj2 (Z.ltb_lt _ _) H).
Qed.

Lemma parseIntNumber_bounds (n : Z) :
  1 <= n -> 1 <= Js.parseIntNumber n <= n.
Proof.
  intros Hn. unfold Js.parseIntNumber.
  destruct (Z.abs n <? 10 ^ 21); [lia|].
  rewrite Z.sgn_pos, Z.abs_eq, Z.mul_1_l by lia.
  now apply firstDigit_bounds.
Qed.

(** C10.  A user who is the driver of the stored ride cannot book a seat on
    it: [bookRide] answers with a client error and the store is left as it
    was, so no booking is created and the ride is unchanged.  When the request
    is otherwise in order on an active ride with enough seats, the reply is
    'Cannot book your own ride'. *)
Theorem bookRide_own_ride (now : Date) (req : BookRideRequest) (db : DB) (r : Ride.t) :
  rides db !! br_rideId req = Some r ->
  Ride.driver r = br_user req ->
  fst (bookRide now req db) = db
  /\ (code (snd (bookRide now req db)) = 400
      \/ code (snd (bookRide now req db)) = 404)
  /\ (forall n p,
        br_seats req = Some n -> 1 <= n -> br_pickupPoint req = Some p ->
        Ride.status r = Ride.active -> n <= Ride.availableSeats r ->
        snd (bookRide now req db) = reply 400 OwnRide).
Proof.
  intros Hr Hd. unfold bookRide. unfold_handler.
  destruct (br_seats req) as [n|] eqn:Hs; [|replied].
  destruct ((n =? 0) || (n <? 1)) eqn:Hn; [replied|].
  assert (Hparse : 1 <= Js.parseIntNumber n <= n)
    by (apply parseIntNumber_bounds; bools; lia).
  destruct (br_pickupPoint req) as [p|] eqn:Hp; [|replied].
  rewrite Hr.
  destruct (Ride_preFind r) eqn:Hv; [|replied].
  destruct (negb (bool_decide (Ride.status r = Ride.active))) eqn:Ha; [replied|].
  destruct (Ride.availableSeats r <? Js.parseIntNumber n) eqn:Hc; [replied|].
  rewrite Hd, String.eqb_refl. replied.
Qed.

(** A sample request: the driver of [Sample.ride0] asks for one seat. *)
Lemma bookRide_own_ride_witness :
  fst (bookRide Sample.t0 (Sample.book "driver" "b9" 1) Sample.db0) = Sample.db0
  /\ snd (bookRide Sample.t0 (Sample.book "driver" "b9" 1) Sample.db0)
     = reply 400 OwnRide.
Proof.
  destruct (bookRide_own_ride Sample.t0 (Sample.book "driver" "b9" 1)
              Sample.db0 Sample.ride0) as (Hdb & _ & Hmsg);
    [ reflexivity | reflexivity | ].
  split; [exact Hdb|].
  apply (Hmsg 1 {| address := "Main gate" |});
    [ reflexivity | lia | reflexivity | reflexivity | vm_compute; discriminate ].
Defined.

(** The sample store [Sample.dbA2] is what [bookRide] leaves when passenger A
    books two seats of the three-seat ride. *)
Lemma dbA2_reached :
  bookRide Sample.t0 (Sample.book "A" "b1" 2) Sample.db0
  = (Sample.dbA2,
     reply 200 (RideBooked (Sample.bookingOf "b1" "A" 2 Booking.confirmed))).
Proof. vm_compute. reflexivity. Qed.

(** C2, as stated, fails, even for a request that names a seat count and a
    pickup point: the ride of [Sample.dbDone] has two seats left and has been
    marked completed; passenger B asks for three seats and is answered
    'Cannot book this ride. Ride is completed', the reply of the status
    guard, which comes before the seat guard.  A ride marked full answers
    likewise. *)
Lemma bookRide_capacity_counterexample :
  ~ (forall now req db r n p,
        rides db !! br_rideId req = Some r ->
        br_seats req = Some n -> 1 <= n ->
        br_pickupPoint req = Some p ->
        Ride.availableSeats r < n ->
        snd (bookRide now req db) = reply 400 (NotEnoughSeats (Ride.availableSeats r))
        /\ fst (bookRide now req db) = db).
Proof.
  intros H.
  destruct (H Sample.tLate (Sample.book "B" "b2" 3)
              (Sample.dbDone Ride.completed None)
              (Sample.rideDone Ride.completed) 3 {| address := "Main gate" |})
    as [Hreply _];
    [reflexivity | reflexivity | lia | reflexivity | reflexivity |].
  vm_compute in Hreply. discriminate Hreply.
Qed.

(** The replies of the status guard to requests that exceed the seats left:
    on the completed ride, and on the ride marked full after A took two of
    its three seats. *)
Lemma bookRide_status_guard_first :
  bookRide Sample.tLate (Sample.book "B" "b2" 3) (Sample.dbDone Ride.completed None)
  = (Sample.dbDone Ride.completed None, reply 400 (CannotBookRide Ride.completed))
  /\ bookRide Sample.t0 (Sample.book "B" "b2" 2) Sample.dbA2
     = (Sample.dbA2, reply 400 (CannotBookRide Ride.full)).
Proof. vm_compute. split; reflexivity. Qed.

(** C2, amended.  When a request names a whole number of seats, below 1e21,
    that exceeds [availableSeats] of the stored ride, [bookRide] fails and
    leaves the store as it was: no booking is created, the seat counter and
    the roster are unchanged.  The reply is that of the first guard that
    fails: 400 'Please provide valid number of seats' below one seat, else
    400 'Please provide pickup point' without a pickup point, else 404 'Ride
    not found' on a cancelled ride, else 400 'Cannot book this ride' on a
    ride that is not active, else 400 'Not enough seats available'. *)
Theorem bookRide_not_enough_seats
    (now : Date) (req : BookRideRequest) (db : DB) (r : Ride.t) (n : Z) :
  rides db !! br_rideId req = Some r ->
  br_seats req = Some n ->
  n < 10 ^ 21 ->
  Ride.availableSeats r < n ->
  fst (bookRide now req db) = db
  /\ snd (bookRide now req db)
     = (if n <? 1 then reply 400 InvalidSeats
        else match br_pickupPoint req with
             | None => reply 400 MissingPickupPoint
             | Some _ =>
                 if bool_decide (Ride.status r = Ride.cancelled)
                 then reply 404 RideNotFound
                 else if bool_decide (Ride.status r = Ride.active)
                      then reply 400 (NotEnoughSeats (Ride.availableSeats r))
                      else reply 400 (CannotBookRide (Ride.status r))
             end)
  /\ (forall p,
        1 <= n -> br_pickupPoint req = Some p -> Ride.status r = Ride.active ->
        snd (bookRide now req db)
        = reply 400 (NotEnoughSeats (Ride.availableSeats r))).
Proof.
  intros Hr Hs Hbig Hlt.
  assert (Hall : fst (bookRide now req db) = db
                 /\ snd (bookRide now req db)
                    = (if n <? 1 then reply 400 InvalidSeats
                       else match br_pickupPoint req with
                            | None => reply 400 MissingPickupPoint
                            | Some _ =>
                                if bool_decide (Ride.status r = Ride.cancelled)
                                then reply 404 RideNotFound
                                else if bool_decide (Ride.status r = Ride.active)
                                     then reply 400
                                            (NotEnoughSeats (Ride.availableSeats r))
                                     else reply 400 (CannotBookRide (Ride.status r))
                            end)).
  { unfold bookRide. unfold_handler. rewrite Hs. cbv beta iota.
    rewrite (seats_guard n).
    destruct (n <? 1) eqn:Hn; cbv beta iota; [now split|].
    apply Z.ltb_ge in Hn.
    destruct (br_pickupPoint req) as [p|]; cbv beta iota; [|now split].
    rewrite Hr. unfold Ride_preFind.
    destruct (bool_decide (Ride.status r = Ride.cancelled)) eqn:Hc;
      cbn [negb]; cbv beta iota; [now split|].
    destruct (bool_decide (Ride.status r = Ride.active)) eqn:Ha;
      cbn [negb]; cbv beta iota; [|now split].
    rewrite parseIntNumber_small by lia.
    rewrite (proj2 (Z.ltb_lt _ _) Hlt). cbv beta iota. now split. }
  destruct Hall as [Hdb Hreply].
  split; [exact Hdb|]. split; [exact Hreply|].
  intros p Hn Hp Hact. rewrite Hreply, Hp, Hact.
  rewrite (proj2 (Z.ltb_ge n 1)) by lia. reflexivity.
Qed.

(** Passenger B asks for four seats of the untouched three-seat ride. *)
Lemma bookRide_not_enough_seats_witness :
  fst (bookRide Sample.t0 (Sample.book "B" "b2" 4) Sample.db0) = Sample.db0
  /\ snd (bookRide Sample.t0 (Sample.book "B" "b2" 4) Sample.db0)
     = reply 400 (NotEnoughSeats 3).
Proof.
  destruct (bookRide_not_enough_seats Sample.t0 (Sample.book "B" "b2" 4)
              Sample.db0 Sample.ride0 4) as (Hdb & _ & Hmsg);
    [ reflexivity | reflexivity | reflexivity | reflexivity | ].
  split; [exact Hdb|].
  apply (Hmsg {| address := "Main gate" |}); [ lia | reflexivity | reflexivity ].
Defined.

(** The duplicate query finds a stored active booking of the passenger. *)
Lemma findOne_active (db : DB) (id : ObjectId) (b : Booking.t) :
  bookings db !! id = Some b ->
  Booking.isActive (Booking.status b) = true ->
  is_Some (List.find (activeBookingOf (Booking.ride b) (Booking.passenger b))
                     (map_to_list (bookings db)).*2).
Proof.
  intros Hb Hact.
  destruct (List.find _ _) as [b'|] eqn:Hfind; [eauto|].
  exfalso.
  assert (Hin : In b (map_to_list (bookings db)).*2).
  { apply list_elem_of_In, list_elem_of_fmap. exists (id, b). split; [reflexivity|].
    now apply elem_of_map_to_list. }
  pose proof (List.find_none _ _ Hfind b Hin) as Hno.
  unfold activeBookingOf in Hno.
  now rewrite !String.eqb_refl, Hact in Hno.
Qed.

(** C3, as stated, fails, even for a request in order on an active ride: on
    [Sample.dbA1] passenger A holds a confirmed one-seat booking and two seats
    are left; a second request of A, for three seats, is answered 'Not enough
    seats available. Only 2 seat(s) left.' by the seat guard, which comes
    before the duplicate query. *)
Lemma bookRide_duplicate_counterexample :
  ~ (forall now req db id b r n p,
        bookings db !! id = Some b ->
        Booking.ride b = br_rideId req ->
        Booking.passenger b = br_user req ->
        Booking.isActive (Booking.status b) = true ->
        rides db !! br_rideId req = Some r ->
        Ride.status r = Ride.active ->
        br_seats req = Some n -> 1 <= n ->
        br_pickupPoint req = Some p ->
        Ride.driver r <> br_user req ->
        snd (bookRide now req db) = reply 400 AlreadyBooked
        /\ fst (bookRide now req db) = db).
Proof.
  intros H.
  destruct (H Sample.t0 (Sample.book "A" "b2" 3) Sample.dbA1 "b1"
              (Sample.bookingOf "b1" "A" 1 Booking.confirmed)
              Sample.rideA1 3 {| address := "Main gate" |})
    as [Hreply _];
    [ reflexivity | reflexivity | reflexivity | reflexivity | reflexivity
    | reflexivity | reflexivity | lia | reflexivity | discriminate | ].
  vm_compute in Hreply. discriminate Hreply.
Qed.

(** The replies behind the counterexample: the seat guard on the active
    ride, the status guard on the ride marked full. *)
Lemma bookRide_duplicate_guarded_first :
  bookRide Sample.t0 (Sample.book "A" "b2" 3) Sample.dbA1
  = (Sample.dbA1, reply 400 (NotEnoughSeats 2))
  /\ bookRide Sample.t0 (Sample.book "A" "b2" 1) Sample.dbA2
     = (Sample.dbA2, reply 400 (CannotBookRide Ride.full)).
Proof. vm_compute. split; reflexivity. Qed.

(** C3, amended.  While a passenger holds a pending or confirmed booking on a
    ride, every further [bookRide] of that passenger on that ride fails with
    a 400 or 404 reply and leaves the store as it was, so no second booking
    exists.  For a whole number of seats below 1e21 the reply is that of the
    first guard that fails: 400 'Please provide valid number of seats'
    without a seat count or below one seat, else 400 'Please provide pickup
    point', else 404 'Ride not found' when the ride is not stored or is
    cancelled, else 400 'Cannot book this ride' when it is not active, else
    400 'Not enough seats available' when the seats exceed those available,
    else 400 'Cannot book your own ride' when the passenger is the driver,
    else 400 'You already have a booking for this ride'. *)
Theorem bookRide_duplicate
    (now : Date) (req : BookRideRequest) (db : DB) (id : ObjectId) (b : Booking.t) :
  bookings db !! id = Some b ->
  Booking.ride b = br_rideId req ->
  Booking.passenger b = br_user req ->
  Booking.isActive (Booking.status b) = true ->
  fst (bookRide now req db) = db
  /\ (code (snd (bookRide now req db)) = 400
      \/ code (snd (bookRide now req db)) = 404)
  /\ ((forall n, br_seats req = Some n -> n < 10 ^ 21) ->
      snd (bookRide now req db)
      = match br_seats req with
        | None => reply 400 InvalidSeats
        | Some n =>
            if n <? 1 then reply 400 InvalidSeats
            else
              match br_pickupPoint req, rides db !! br_rideId req with
              | None, _ => reply 400 MissingPickupPoint
              | Some _, None => reply 404 RideNotFound
              | Some _, Some r =>
                  if bool_decide (Ride.status r = Ride.cancelled)
                  then reply 404 RideNotFound
                  else if negb (bool_decide (Ride.status r = Ride.active))
                  then reply 400 (CannotBookRide (Ride.status r))
                  else if Ride.availableSeats r <? n
                  then reply 400 (NotEnoughSeats (Ride.availableSeats r))
                  else if String.eqb (Ride.driver r) (br_user req)
                  then reply 400 OwnRide
                  else reply 400 AlreadyBooked
              end
        end)
  /\ (forall n p r,
        br_seats req = Some n -> 1 <= n < 10 ^ 21 ->
        br_pickupPoint req = Some p ->
        rides db !! br_rideId req = Some r ->
        Ride.status r = Ride.active -> n <= Ride.availableSeats r ->
        Ride.driver r <> br_user req ->
        snd (bookRide now req db) = reply 400 AlreadyBooked).
Proof.
  intros Hb Hride Hpass Hact.
  pose proof (findOne_active db id b Hb Hact) as Hfind.
  rewrite Hride, Hpass in Hfind.
  assert (Hall : fst (bookRide now req db) = db
    /\ snd (bookRide now req db)
      = match br_seats req with
        | None => reply 400 InvalidSeats
        | Some n =>
            if n <? 1 then reply 400 InvalidSeats
            else
              match br_pickupPoint req, rides db !! br_rideId req with
              | None, _ => reply 400 MissingPickupPoint
              | Some _, None => reply 404 RideNotFound
              | Some _, Some r =>
                  if bool_decide (Ride.status r = Ride.cancelled)
                  then reply 404 RideNotFound
                  else if negb (bool_decide (Ride.status r = Ride.active))
                  then reply 400 (CannotBookRide (Ride.status r))
                  else if Ride.availableSeats r <? Js.parseIntNumber n
                  then reply 400 (NotEnoughSeats (Ride.availableSeats r))
                  else if String.eqb (Ride.driver r) (br_user req)
                  then reply 400 OwnRide
                  else reply 400 AlreadyBooked
              end
        end).
  { unfold bookRide. unfold_handler.
    destruct (br_seats req) as [n|]; cbv beta iota; [|now split].
    rewrite (seats_guard n).
    destruct (n <? 1) eqn:Hn; cbv beta iota; [now split|].
    apply Z.ltb_ge in Hn.
    destruct (br_pickupPoint req) as [p|]; cbv beta iota; [|now split].
    destruct (rides db !! br_rideId req) as [r|]; cbv beta iota; [|now split].
    unfold Ride_preFind.
    destruct (bool_decide (Ride.status r = Ride.cancelled));
      cbn [negb]; cbv beta iota; [now split|].
    destruct (negb (bool_decide (Ride.status r = Ride.active)));
      cbv beta iota; [now split|].
    destruct (Ride.availableSeats r <? Js.parseIntNumber n);
      cbv beta iota; [now split|].
    destruct (String.eqb (Ride.driver r) (br_user req));
      cbv beta iota; [now split|].
    rewrite (bool_decide_eq_true_2 _ Hfind). cbv beta iota. now split. }
  destruct Hall as [Hdb Hreply].
  assert (Heq : (forall n, br_seats req = Some n -> n < 10 ^ 21) ->
                snd (bookRide now req db)
                = match br_seats req with
                  | None => reply 400 InvalidSeats
                  | Some n =>
                      if n <? 1 then reply 400 InvalidSeats
                      else
                        match br_pickupPoint req, rides db !! br_rideId req with
                        | None, _ => reply 400 MissingPickupPoint
                        | Some _, None => reply 404 RideNotFound
                        | Some _, Some r =>
                            if bool_decide (Ride.status r = Ride.cancelled)
                            then reply 404 RideNotFound
                            else if negb (bool_decide (Ride.status r = Ride.active))
                            then reply 400 (CannotBookRide (Ride.status r))
                            else if Ride.availableSeats r <? n
                            then reply 400 (NotEnoughSeats (Ride.availableSeats r))
                            else if String.eqb (Ride.driver r) (br_user req)
                            then reply 400 OwnRide
                            else reply 400 AlreadyBooked
                        end
                  end).
  { intros Hbig. rewrite Hreply.
    destruct (br_seats req) as [n|]; [|reflexivity].
    destruct (n <? 1) eqn:Hn; [reflexivity|]. apply Z.ltb_ge in Hn.
    rewrite parseIntNumber_small; [reflexivity|].
    specialize (Hbig n eq_refl). lia. }
  split; [exact Hdb|]. split; [|split; [exact Heq|]].
  - rewrite Hreply.
    repeat match goal with
           | |- context [match ?x with _ => _ end] => destruct x
           end; cbn; auto.
  - intros n p r Hs Hn Hp Hr Hst Hle Hd.
    rewrite Heq by (intros n' Hn'; rewrite Hs in Hn'; injection Hn' as <-; lia).
    rewrite Hs, Hp, Hr, Hst.
    rewrite (proj2 (Z.ltb_ge n 1)) by lia.
    rewrite (proj2 (Z.ltb_ge _ _) Hle), (proj2 (String.eqb_neq _ _) Hd).
    reflexivity.
Qed.

(** A passenger who holds one seat asks for one more on the still active
    ride. *)
Lemma bookRide_duplicate_witness :
  fst (bookRide Sample.t0 (Sample.book "A" "b2" 1) Sample.dbA1) = Sample.dbA1
  /\ snd (bookRide Sample.t0 (Sample.book "A" "b2" 1) Sample.dbA1)
     = reply 400 AlreadyBooked.
Proof.
  destruct (bookRide_duplicate Sample.t0 (Sample.book "A" "b2" 1) Sample.dbA1
              "b1" (Sample.bookingOf "b1" "A" 1 Booking.confirmed))
    as (Hdb & _ & _ & Hmsg);
    [ reflexivity | reflexivity | reflexivity | reflexivity | ].
  split; [exact Hdb|].
  apply (Hmsg 1 {| address := "Main gate" |} Sample.rideA1);
    [ reflexivity | split; [lia | reflexivity] | reflexivity | reflexivity
    | reflexivity | vm_compute; discriminate | discriminate ].
Defined.

(** ** Sequences of bookings and cancellations *)

(** The sample store [Sample.dbA1] is what [bookRide] leaves when passenger A
    books one seat of the three-seat ride. *)
Lemma dbA1_reached :
  bookRide Sample.t0 (Sample.book "A" "b1" 1) Sample.db0
  = (Sample.dbA1,
     reply 200 (RideBooked (Sample.bookingOf "b1" "A" 1 Booking.confirmed))).
Proof. vm_compute. reflexivity. Qed.

(** C1.  The seat invariant does not survive [bookRide].  On the ride of
    capacity 3, passenger A books one seat: the reply is 200,
    [availableSeats] falls to 2, and the roster holds two confirmed entries
    of one seat each, the entry of the Booking post-save hook and the entry
    the handler pushes, so that the seats held are 2 and the counter is not
    the capacity less the seats held.  A [cancelBooking] of A that follows is
    answered 403 and changes nothing.  When A books two seats instead, the
    seats held are 4, more than the capacity, and the virtual
    [remainingSeats] is negative. *)
Theorem seat_invariant_broken_by_bookRide :
  let capacity := Ride.availableSeats Sample.ride0 in
  let one := bookRide Sample.t0 (Sample.book "A" "b1" 1) Sample.db0 in
  let cancelled := cancelBooking Sample.t0 (Sample.cancel "A" "b1") (fst one) in
  let two := bookRide Sample.t0 (Sample.book "A" "b1" 2) Sample.db0 in
  capacity = 3
  /\ code (snd one) = 200
  /\ seatsOf (fst one) "r1" = Some 2
  /\ bookedOf (fst one) "r1" = Some 2
  /\ seatsOf (fst one) "r1" <> Some (capacity - 2)
  /\ code (snd cancelled) = 403
  /\ seatsOf (fst cancelled) "r1" = Some 2
  /\ bookedOf (fst cancelled) "r1" = Some 2
  /\ code (snd two) = 200
  /\ seatsOf (fst two) "r1" = Some 1
  /\ bookedOf (fst two) "r1" = Some 4
  /\ Ride.remainingSeats <$> rides (fst two) !! "r1" = Some (-3).
Proof.
  vm_compute. repeat split; try discriminate.
Qed.

(** C5.  [cancelBooking] does not credit the seats of a confirmed booking:
    passenger A, who holds the confirmed one-seat booking, asks to cancel it
    and is answered 403 'Not authorized to cancel this booking', because the
    guard compares the identifier of the user with the populated passenger
    document printed as a string; the booking stays confirmed and
    [availableSeats] stays at 2. *)
Theorem cancelBooking_refuses_the_passenger :
  let result := cancelBooking Sample.t0 (Sample.cancel "A" "b1") Sample.dbA1 in
  seatsOf Sample.dbA1 "r1" = Some 2
  /\ bookingStatusOf Sample.dbA1 "b1" = Some Booking.confirmed
  /\ Booking.passenger <$> bookings Sample.dbA1 !! "b1" = Some "A"%string
  /\ snd result = reply 403 NotAuthorizedCancelBooking
  /\ seatsOf (fst result) "r1" = Some 2
  /\ bookingStatusOf (fst result) "b1" = Some Booking.confirmed.
Proof. vm_compute. repeat split. Qed.

(** What the method [canBeCancelled] demands of a booking whose ride is
    populated. *)
Lemma canBeCancelled_true_iff (b : Booking.t) (rideDate now : Date) :
  Booking.canBeCancelled b (Booking.populatedWith rideDate) now
  = Booking.returns true
  <-> now < rideDate - Js.msPerHour
      /\ Booking.isActive (Booking.status b) = true
      /\ Booking.paymentStatus b <> Booking.refunded.
Proof.
  unfold Booking.canBeCancelled. cbn [Booking.rideDateOf]. cbv zeta.
  rewrite Z.mul_1_l.
  split.
  - intros H. injection H as H.
    rewrite !andb_true_iff, Z.ltb_lt, negb_true_iff, bool_decide_eq_false in H.
    tauto.
  - intros H. f_equal.
    rewrite !andb_true_iff, Z.ltb_lt, negb_true_iff, bool_decide_eq_false.
    tauto.
Qed.

(** C6.  [cancelBooking] does not consult [canBeCancelled] and has no reply
    for a closed cancellation window.  For the confirmed booking of A the
    method answers true on day 1 and false a day after the ride has left;
    the handler gives A the same reply at both instants, 403 'Not authorized
    to cancel this booking', and leaves the store as it was. *)
Theorem cancelBooking_ignores_cancellation_window :
  let b := Sample.bookingOf "b1" "A" 1 Booking.confirmed in
  let ride := Booking.populatedWith (Ride.date Sample.rideA1) in
  Booking.canBeCancelled b ride Sample.t0 = Booking.returns true
  /\ Booking.canBeCancelled b ride Sample.tLate = Booking.returns false
  /\ Ride.isPast Sample.rideA1 Sample.tLate = true
  /\ snd (cancelBooking Sample.t0 (Sample.cancel "A" "b1") Sample.dbA1)
     = reply 403 NotAuthorizedCancelBooking
  /\ snd (cancelBooking Sample.tLate (Sample.cancel "A" "b1") Sample.dbA1)
     = reply 403 NotAuthorizedCancelBooking
  /\ bookingStatusOf
       (fst (cancelBooking Sample.tLate (Sample.cancel "A" "b1") Sample.dbA1)) "b1"
     = Some Booking.confirmed.
Proof. vm_compute. repeat split. Qed.

(** C8.  [cancelRide] does not cancel the ride of its driver: on the store
    where A holds a confirmed booking on the active ride, the driver of the
    ride is answered 403 'Not authorized to cancel this ride', because the
    guard compares the identifier of the user with the populated driver
    document printed as a string; the ride stays active and the booking
    stays confirmed. *)
Theorem cancelRide_refuses_the_driver :
  let req := Build_CancelRideRequest "r1" "driver" in
  let result := cancelRide Sample.t0 req Sample.dbA1 in
  Ride.driver <$> rides Sample.dbA1 !! "r1" = Some "driver"%string
  /\ snd result = reply 403 NotAuthorizedCancelRide
  /\ rideStatusOf (fst result) "r1" = Some Ride.active
  /\ bookingStatusOf (fst result) "b1" = Some Booking.confirmed.
Proof. vm_compute. repeat split. Qed.

(** ** Guards of [submitRating] *)


(** The replies behind the counterexample, evaluated: the rating on the ride
    put back to active, and a rating on a cancelled ride. *)
Lemma submitRating_earlier_replies :
  submitRating Sample.tLate (Sample.rate "A" 4 "driver")
               (Sample.dbDone Ride.active (Some 5))
  = (Sample.dbDone Ride.active (Some 5), reply 400 OnlyCompletedRides)
  /\ submitRating Sample.tLate (Sample.rate "A" 4 "driver")
                  (Sample.dbDone Ride.cancelled None)
     = (Sample.dbDone Ride.cancelled None,
        reply 500 (ErrorSubmittingRating TypeError)).
Proof. vm_compute. split; reflexivity. Qed.



(** * Further properties of the models and the handlers *)

(** ** Roster arithmetic *)

Lemma fold_seats_shift (l : list Ride.Passenger) (a : Z) :
  fold_left (fun total p => total + Ride.seats p) l a
  = a + fold_left (fun total p => total + Ride.seats p) l 0.
Proof.
  revert a. induction l as [|p l IH]; intros a; cbn.
  - lia.
  - rewrite IH, (IH (0 + Ride.seats p)). lia.
Qed.

Lemma heldSeats_cons (p : Ride.Passenger) (l : list Ride.Passenger) :
  heldSeats (p :: l)
  = (if Ride.holdsSeats p then Ride.seats p else 0) + heldSeats l.
Proof.
  unfold heldSeats. cbn. destruct (Ride.holdsSeats p); cbn; [|lia].
  now rewrite fold_seats_shift.
Qed.

Lemma heldSeats_app (l1 l2 : list Ride.Passenger) :
  heldSeats (l1 ++ l2) = heldSeats l1 + heldSeats l2.
Proof.
  induction l1 as [|p l1 IH]; [reflexivity|].
  cbn [app]. rewrite !heldSeats_cons, IH. lia.
Qed.

Lemma bookedSeats_heldSeats (r : Ride.t) :
  Ride.bookedSeats r = heldSeats (Ride.passengers r).
Proof. reflexivity. Qed.

(** ** Instance methods of the Ride model *)

Lemma updateStatus_status (now : Date) (r : Ride.t) :
  Ride.status (Ride.updateStatus now r)
  = if Ride.isFull r then Ride.full
    else match Ride.status r with
         | Ride.full | Ride.active =>
             if Ride.isPast r now then Ride.completed else Ride.active
         | st => st
         end.
Proof.
  unfold Ride.updateStatus; cbv zeta.
  destruct (Ride.isFull r) eqn:Hfull.
  - repeat (ride_setters; rewrite ?andb_false_r; decide_status; cbn [andb negb]).
    reflexivity.
  - destruct (Ride.isPast r now) eqn:Hpast, (Ride.status r) eqn:Hst;
      repeat (ride_setters; rewrite ?Hfull, ?Hpast, ?Hst, ?andb_false_r;
              decide_status; cbn [andb negb]);
      reflexivity.
Qed.

Lemma updateStatus_frame (now : Date) (r : Ride.t) :
  Ride.availableSeats (Ride.updateStatus now r) = Ride.availableSeats r
  /\ Ride.passengers (Ride.updateStatus now r) = Ride.passengers r
  /\ Ride._id (Ride.updateStatus now r) = Ride._id r
  /\ Ride.driver (Ride.updateStatus now r) = Ride.driver r
  /\ Ride.pricePerSeat (Ride.updateStatus now r) = Ride.pricePerSeat r.
Proof.
  unfold Ride.updateStatus; cbv zeta.
  repeat match goal with
         | |- context [if ?b then _ else _] => destruct b
         end; repeat split; reflexivity.
Qed.


(** X1.  [updateStatus] writes 'full' whenever no seat remains, whatever the
    status was (a cancelled or completed ride included); otherwise a ride
    that was full or active becomes active, or completed once its departure
    has passed, and any other status is kept.  Seats, roster, identifier,
    driver and price are never touched. *)
Theorem updateStatus_outcome (now : Date) (r : Ride.t) :
  (Ride.remainingSeats r <= 0 -> Ride.status (Ride.updateStatus now r) = Ride.full)
  /\ (0 < Ride.remainingSeats r ->
      (Ride.status r = Ride.full \/ Ride.status r = Ride.active) ->
      Ride.status (Ride.updateStatus now r)
      = if Ride.isPast r now then Ride.completed else Ride.active)
  /\ (0 < Ride.remainingSeats r ->
      Ride.status r <> Ride.full -> Ride.status r <> Ride.active ->
      Ride.status (Ride.updateStatus now r) = Ride.status r)
  /\ Ride.availableSeats (Ride.updateStatus now r) = Ride.availableSeats r
  /\ Ride.passengers (Ride.updateStatus now r) = Ride.passengers r.
Proof.
  rewrite updateStatus_status. unfold Ride.isFull.
  destruct (updateStatus_frame now r) as (Ha & Hp & _).
  repeat split; try assumption.
  - intros H. now rewrite (proj2 (Z.leb_le _ _) H).
  - intros H Hst. rewrite (proj2 (Z.leb_gt _ _) H).
    destruct Hst as [-> | ->]; reflexivity.
  - intros H Hf Hact. rewrite (proj2 (Z.leb_gt _ _) H).
    destruct (Ride.status r); congruence.
Qed.

(** A cancelled ride of one seat whose only seat is held. *)
Lemma updateStatus_outcome_witness :
  Ride.status (Ride.updateStatus Sample.t0 (Ride.set_status Ride.cancelled Sample.rideA2))
  = Ride.full.
Proof.
  destruct (updateStatus_outcome Sample.t0
              (Ride.set_status Ride.cancelled Sample.rideA2)) as (H & _).
  apply H. vm_compute. discriminate.
Defined.

(** X2.  [addPassenger] never overbooks: when it returns, the seats that
    remain are the former remainder less the seats taken and are not
    negative, [availableSeats] is as before, the user is a passenger, and the
    ride is marked full exactly when nothing remains. *)
Theorem addPassenger_never_overbooks
    (now : Date) (u : ObjectId) (n : Z) (pk : option string) (bid : ObjectId)
    (r r' : Ride.t) :
  RideMethods.addPassenger now u n pk bid r = inr r' ->
  Ride.availableSeats r' = Ride.availableSeats r
  /\ Ride.remainingSeats r' = Ride.remainingSeats r - n
  /\ 0 <= Ride.remainingSeats r'
  /\ Ride.isPassenger r' u = true
  /\ (Ride.status r' = Ride.full <-> Ride.remainingSeats r' = 0).
Proof.
  unfold RideMethods.addPassenger.
  destruct (Ride.isFull r) eqn:Hfull; [discriminate|].
  destruct (Ride.remainingSeats r <? n) eqn:Hlt; [discriminate|].
  destruct (Ride.isPassenger r u) eqn:Hpass; [discriminate|].
  intros [= <-].
  set (e := Ride.mkPassenger u now pk n Ride.p_confirmed bid).
  set (r1 := Ride.set_passengers (Ride.passengers r ++ [e]) r).
  destruct (updateStatus_frame now r1) as (Ha & Hp & _).
  assert (Hrem1 : Ride.remainingSeats r1 = Ride.remainingSeats r - n).
  { unfold Ride.remainingSeats. rewrite !bookedSeats_heldSeats.
    change (Ride.passengers r1) with (Ride.passengers r ++ [e]).
    change (Ride.availableSeats r1) with (Ride.availableSeats r).
    rewrite heldSeats_app, heldSeats_cons.
    change (heldSeats []) with 0.
    change (Ride.holdsSeats e) with true. change (Ride.seats e) with n.
    cbv iota. lia. }
  assert (Hrem : Ride.remainingSeats (Ride.updateStatus now r1)
                 = Ride.remainingSeats r - n).
  { rewrite <- Hrem1. unfold Ride.remainingSeats, Ride.bookedSeats.
    now rewrite Ha, Hp. }
  apply Z.ltb_ge in Hlt. unfold Ride.isFull in Hfull. apply Z.leb_gt in Hfull.
  repeat split.
  - exact Ha.
  - exact Hrem.
  - lia.
  - unfold Ride.isPassenger. rewrite Hp. subst r1. cbn.
    rewrite existsb_app. cbn. rewrite String.eqb_refl.
    now rewrite orb_true_r.
  - rewrite updateStatus_status. unfold Ride.isFull. rewrite Hrem1.
    destruct (Ride.remainingSeats r - n <=? 0) eqn:Hle.
    + intros _. apply Z.leb_le in Hle. lia.
    + intros Hst. exfalso.
      change (Ride.status r1) with (Ride.status r) in Hst.
      destruct (Ride.status r), (Ride.isPast r1 now); discriminate.
  - rewrite updateStatus_status. unfold Ride.isFull. rewrite Hrem1, Hrem.
    intros ->. reflexivity.
Qed.

(** Passenger B takes the three seats of the untouched ride. *)
Lemma addPassenger_never_overbooks_witness :
  exists r',
    RideMethods.addPassenger Sample.t0 "B" 3 None "b2" Sample.ride0 = inr r'
    /\ Ride.remainingSeats r' = 0 /\ Ride.status r' = Ride.full.
Proof.
  eexists. split; [reflexivity|].
  destruct (addPassenger_never_overbooks Sample.t0 "B" 3 None "b2" Sample.ride0 _
              eq_refl) as (_ & Hrem & _ & _ & Hfull).
  split; [exact Hrem | apply Hfull; exact Hrem].
Defined.

Lemma addPassenger_inr
    (now : Date) (u : ObjectId) (n : Z) (pk : option string) (bid : ObjectId)
    (r r' : Ride.t) :
  RideMethods.addPassenger now u n pk bid r = inr r' ->
  0 < Ride.remainingSeats r /\ n <= Ride.remainingSeats r
  /\ Ride.isPassenger r u = false
  /\ r' = Ride.updateStatus now
            (Ride.set_passengers
               (Ride.passengers r
                ++ [Ride.mkPassenger u now pk n Ride.p_confirmed bid]) r).
Proof.
  unfold RideMethods.addPassenger, Ride.isFull.
  destruct (Ride.remainingSeats r <=? 0) eqn:Hfull; [discriminate|].
  destruct (Ride.remainingSeats r <? n) eqn:Hlt; [discriminate|].
  destruct (Ride.isPassenger r u) eqn:Hpass; [discriminate|].
  intros [= <-]. apply Z.leb_gt in Hfull. apply Z.ltb_ge in Hlt. auto.
Qed.

Lemma isPassenger_updateStatus (now : Date) (r : Ride.t) (u : ObjectId) :
  Ride.isPassenger (Ride.updateStatus now r) u = Ride.isPassenger r u.
Proof.
  unfold Ride.isPassenger.
  now destruct (updateStatus_frame now r) as (_ & -> & _).
Qed.

Lemma remainingSeats_updateStatus (now : Date) (r : Ride.t) :
  Ride.remainingSeats (Ride.updateStatus now r) = Ride.remainingSeats r.
Proof.
  unfold Ride.remainingSeats, Ride.bookedSeats.
  now destruct (updateStatus_frame now r) as (-> & -> & _).
Qed.



Lemma cancelFirst_none (u : ObjectId) (l : list Ride.Passenger) :
  RideMethods.cancelFirst u l = None
  <-> Forall (fun p => Ride.user p <> u) l.
Proof.
  induction l as [|p l IH]; cbn.
  - split; [constructor | reflexivity].
  - destruct (Ride.user p =? u)%string eqn:E.
    + apply String.eqb_eq in E. split; [discriminate|].
      intros H. inversion H; subst. congruence.
    + apply String.eqb_neq in E.
      destruct (RideMethods.cancelFirst u l) as [l'|]; cbn.
      * split; [discriminate|]. intros H. inversion H; subst.
        apply IH in H3. discriminate.
      * split; [|reflexivity]. intros _. constructor; [exact E|].
        now apply IH.
Qed.

Lemma cancelFirst_split (u : ObjectId) (l1 l2 : list Ride.Passenger)
    (e : Ride.Passenger) :
  Forall (fun p => Ride.user p <> u) l1 -> Ride.user e = u ->
  RideMethods.cancelFirst u (l1 ++ e :: l2)
  = Some (l1 ++ RideMethods.set_pstatus Ride.p_cancelled e :: l2).
Proof.
  intros Hl1 He. induction Hl1 as [|p l1 Hp _ IH]; cbn.
  - now rewrite (proj2 (String.eqb_eq _ _) He).
  - now rewrite (proj2 (String.eqb_neq _ _) Hp), IH.
Qed.

(** X4.  [removePassenger] throws 'Passenger not found' exactly when no
    roster entry names the user; otherwise it marks cancelled the first entry
    that names the user, whatever the status of that entry, leaves every
    other entry (later entries of the same user included) and the seat
    counter as they were, and re-derives the status. *)
Theorem removePassenger_first_entry (now : Date) (u : ObjectId) (r : Ride.t) :
  (RideMethods.removePassenger now u r = inl RideMethods.PassengerNotFound
   <-> Forall (fun p => Ride.user p <> u) (Ride.passengers r))
  /\ (forall l1 e l2,
        Ride.passengers r = l1 ++ e :: l2 ->
        Forall (fun p => Ride.user p <> u) l1 -> Ride.user e = u ->
        exists r',
          RideMethods.removePassenger now u r = inr r'
          /\ Ride.passengers r'
             = l1 ++ RideMethods.set_pstatus Ride.p_cancelled e :: l2
          /\ Ride.availableSeats r' = Ride.availableSeats r).
Proof.
  unfold RideMethods.removePassenger. split.
  - rewrite <- cancelFirst_none.
    destruct (RideMethods.cancelFirst u (Ride.passengers r));
      split; congruence.
  - intros l1 e l2 Hps Hl1 He.
    rewrite Hps, (cancelFirst_split u l1 l2 e Hl1 He).
    eexists. split; [reflexivity|].
    destruct (updateStatus_frame now
                (Ride.set_passengers
                   (l1 ++ RideMethods.set_pstatus Ride.p_cancelled e :: l2) r))
      as (Ha & Hp & _).
    now rewrite Ha, Hp.
Qed.

(** Passenger A, the only roster entry, is removed. *)
Lemma removePassenger_first_entry_witness :
  exists r',
    RideMethods.removePassenger Sample.t0 "A"
      (Ride.set_passengers
         [Ride.mkPassenger "A" Sample.t0 None 1 Ride.p_confirmed "b1"]
         Sample.ride0) = inr r'
    /\ Ride.passengers r'
       = [Ride.mkPassenger "A" Sample.t0 None 1 Ride.p_cancelled "b1"]
    /\ Ride.availableSeats r' = 3.
Proof.
  exact (proj2 (removePassenger_first_entry Sample.t0 "A"
                  (Ride.set_passengers
                     [Ride.mkPassenger "A" Sample.t0 None 1 Ride.p_confirmed "b1"]
                     Sample.ride0))
           [] (Ride.mkPassenger "A" Sample.t0 None 1 Ride.p_confirmed "b1") []
           eq_refl ltac:(constructor) eq_refl).
Defined.

(** X5.  Adding a user who has no roster entry and removing that user again
    gives back the seats: after [addPassenger] then [removePassenger] the
    seats held, the seats remaining and [availableSeats] are those of the
    ride before, and the user is no passenger. *)
Theorem addPassenger_removePassenger
    (now now' : Date) (u : ObjectId) (n : Z) (pk : option string)
    (bid : ObjectId) (r r1 : Ride.t) :
  Forall (fun p => Ride.user p <> u) (Ride.passengers r) ->
  RideMethods.addPassenger now u n pk bid r = inr r1 ->
  exists r2,
    RideMethods.removePassenger now' u r1 = inr r2
    /\ Ride.bookedSeats r2 = Ride.bookedSeats r
    /\ Ride.remainingSeats r2 = Ride.remainingSeats r
    /\ Ride.availableSeats r2 = Ride.availableSeats r
    /\ Ride.isPassenger r2 u = false.
Proof.
  intros Hnone Hadd.
  destruct (addPassenger_inr _ _ _ _ _ _ _ Hadd) as (_ & _ & Hpass & ->).
  set (e := Ride.mkPassenger u now pk n Ride.p_confirmed bid).
  set (r0 := Ride.set_passengers (Ride.passengers r ++ [e]) r).
  destruct (updateStatus_frame now r0) as (Ha0 & Hp0 & _).
  unfold RideMethods.removePassenger. rewrite Hp0.
  change (Ride.passengers r0) with (Ride.passengers r ++ e :: []).
  rewrite (cancelFirst_split u _ [] e Hnone eq_refl).
  set (r2 := Ride.set_passengers _ (Ride.updateStatus now r0)).
  destruct (updateStatus_frame now' r2) as (Ha2 & Hp2 & _).
  assert (Hbooked : Ride.bookedSeats (Ride.updateStatus now' r2)
                    = Ride.bookedSeats r).
  { rewrite !bookedSeats_heldSeats, Hp2. subst r2.
    cbn [Ride.passengers Ride.set_passengers].
    rewrite heldSeats_app, heldSeats_cons.
    change (heldSeats []) with 0. cbn. lia. }
  assert (Havail : Ride.availableSeats (Ride.updateStatus now' r2)
                   = Ride.availableSeats r).
  { rewrite Ha2. subst r2. cbn [Ride.availableSeats Ride.set_passengers].
    exact Ha0. }
  eexists. split; [reflexivity|]. repeat split.
  - exact Hbooked.
  - unfold Ride.remainingSeats. now rewrite Hbooked, Havail.
  - exact Havail.
  - rewrite isPassenger_updateStatus. subst r2. unfold Ride.isPassenger.
    cbn [Ride.passengers Ride.set_passengers]. rewrite existsb_app.
    unfold Ride.isPassenger in Hpass. rewrite Hpass. cbn.
    now rewrite andb_false_r.
Qed.

(** Passenger B joins the untouched ride with two seats and leaves again. *)
Lemma addPassenger_removePassenger_witness :
  exists r1 r2,
    RideMethods.addPassenger Sample.t0 "B" 2 None "b2" Sample.ride0 = inr r1
    /\ RideMethods.removePassenger Sample.t0 "B" r1 = inr r2
    /\ Ride.remainingSeats r2 = 3.
Proof.
  destruct (addPassenger_removePassenger Sample.t0 Sample.t0 "B" 2 None "b2"
              Sample.ride0 _ ltac:(constructor) eq_refl)
    as (r2 & Hrem & _ & Hleft & _).
  eexists. exists r2. split; [reflexivity|]. split; [exact Hrem | exact Hleft].
Defined.

(** X6.  [removePassenger] does not remove a user who was added again: when
    the roster already holds an entry of the user (cancelled, pending or
    no-show, so that [addPassenger] accepts the user), [removePassenger]
    after [addPassenger] cancels that earlier entry and the user is still a
    passenger. *)
Theorem removePassenger_keeps_readded_user
    (now now' : Date) (u : ObjectId) (n : Z) (pk : option string)
    (bid : ObjectId) (r r1 : Ride.t) (l1 l2 : list Ride.Passenger)
    (e : Ride.Passenger) :
  Ride.passengers r = l1 ++ e :: l2 ->
  Forall (fun p => Ride.user p <> u) l1 -> Ride.user e = u ->
  RideMethods.addPassenger now u n pk bid r = inr r1 ->
  exists r2,
    RideMethods.removePassenger now' u r1 = inr r2
    /\ Ride.isPassenger r2 u = true
    /\ Ride.passengers r2
       = l1 ++ RideMethods.set_pstatus Ride.p_cancelled e
            :: l2 ++ [Ride.mkPassenger u now pk n Ride.p_confirmed bid].
Proof.
  intros Hps Hl1 He Hadd.
  destruct (addPassenger_inr _ _ _ _ _ _ _ Hadd) as (_ & _ & _ & ->).
  set (new := Ride.mkPassenger u now pk n Ride.p_confirmed bid).
  set (r0 := Ride.set_passengers (Ride.passengers r ++ [new]) r).
  destruct (updateStatus_frame now r0) as (_ & Hp0 & _).
  unfold RideMethods.removePassenger. rewrite Hp0.
  change (Ride.passengers r0) with (Ride.passengers r ++ [new]).
  rewrite Hps, <- app_assoc. cbn [app].
  rewrite (cancelFirst_split u l1 (l2 ++ [new]) e Hl1 He).
  set (r2 := Ride.set_passengers _ (Ride.updateStatus now r0)).
  destruct (updateStatus_frame now' r2) as (_ & Hp2 & _).
  eexists. split; [reflexivity|]. split.
  - unfold Ride.isPassenger. rewrite Hp2. subst r2.
    cbn [Ride.passengers Ride.set_passengers].
    rewrite existsb_app. cbn [existsb]. rewrite existsb_app. cbn.
    rewrite String.eqb_refl. cbn. now rewrite !orb_true_r.
  - now rewrite Hp2.
Qed.

(** Passenger A, whose only entry is cancelled, is added again and removed. *)
Lemma removePassenger_keeps_readded_user_witness :
  let stale := Ride.mkPassenger "A" Sample.t0 None 1 Ride.p_cancelled "b1" in
  let r := Ride.set_passengers [stale] Sample.ride0 in
  exists r1 r2,
    RideMethods.addPassenger Sample.t0 "A" 1 None "b2" r = inr r1
    /\ RideMethods.removePassenger Sample.t0 "A" r1 = inr r2
    /\ Ride.isPassenger r2 "A" = true.
Proof.
  intros stale r.
  destruct (removePassenger_keeps_readded_user Sample.t0 Sample.t0 "A" 1 None
              "b2" r _ [] [] stale eq_refl ltac:(constructor) eq_refl eq_refl)
    as (r2 & Hrem & Hpass & _).
  eexists. exists r2. split; [reflexivity|]. split; [exact Hrem | exact Hpass].
Defined.

(** ** Hours until the ride *)

(** X7.  A ride that [canBeCancelled] is active, has a departure instant
    more than two hours ahead and is not past; re-deriving its status never
    completes it: it stays active, or becomes full when no seat remains. *)
Theorem canBeCancelled_ride_not_past (r : Ride.t) (now : Date) :
  RideMethods.canBeCancelled r now = true ->
  Ride.status r = Ride.active
  /\ Ride.isPast r now = false
  /\ (exists departure,
        Ride.rideDateTime r = Some departure /\ 2 * 3600000 < departure - now)
  /\ Ride.status (Ride.updateStatus now r)
     = if Ride.isFull r then Ride.full else Ride.active.
Proof.
  unfold RideMethods.canBeCancelled.
  destruct (Ride.rideDateTime r) as [t|] eqn:Ht; [|discriminate].
  intros H. apply andb_true_iff in H. destruct H as [Hh Hst].
  apply bool_decide_eq_true_1 in Hst.
  apply (hours_gt (t - now) 2) in Hh.
  assert (Hpast : Ride.isPast r now = false).
  { unfold Ride.isPast. rewrite Ht. apply Z.ltb_ge. lia. }
  repeat split; try assumption.
  - exists t. split; [reflexivity | exact Hh].
  - rewrite updateStatus_status, Hst, Hpast. reflexivity.
Qed.

(** The untouched sample ride, 29 days ahead of its departure. *)
Lemma canBeCancelled_ride_not_past_witness :
  Ride.status (Ride.updateStatus Sample.t0 Sample.ride0) = Ride.active.
Proof.
  destruct (canBeCancelled_ride_not_past Sample.ride0 Sample.t0 eq_refl)
    as (_ & _ & _ & H).
  exact H.
Defined.

(** ** Refund amounts *)

Lemma half_bounds (p : Q) : (0 <= p)%Q -> (0 <= p * (1 # 2))%Q /\ (p * (1 # 2) <= p)%Q.
Proof.
  intros Hp. split.
  - apply Qmult_le_0_compat; [exact Hp | discriminate].
  - rewrite <- (Qmult_1_r p) at 2.
    rewrite !(Qmult_comm p). apply Qmult_le_compat_r; [discriminate | exact Hp].
Qed.

(** X8.  [calculateRefund] throws exactly for a cancelled booking whose
    populated ride is [null].  Whenever it returns, for a booking whose total
    price is not negative, the refund lies between 0 and the total price, and
    it never grows as the clock advances: a later cancellation is refunded
    at most what an earlier one is. *)
Theorem calculateRefund_bounded_and_decreasing
    (b : Booking.t) (ride : Booking.RidePath) (now later : Date) :
  (0 <= Booking.totalPrice b)%Q ->
  now <= later ->
  (Booking.calculateRefund b ride now = Booking.throwsTypeError
   <-> Booking.status b = Booking.cancelled /\ ride = Booking.populatedNull)
  /\ (forall x y,
        Booking.calculateRefund b ride now = Booking.returns x ->
        Booking.calculateRefund b ride later = Booking.returns y ->
        (0 <= x)%Q /\ (x <= Booking.totalPrice b)%Q /\ (y <= x)%Q).
Proof.
  intros Hp Hle. destruct (half_bounds _ Hp) as [Hh0 Hh1].
  destruct (decide (Booking.status b = Booking.cancelled)) as [Hst | Hst];
    [destruct ride as [| |d]|].
  - unfold Booking.calculateRefund. rewrite Hst. decide_status.
    cbn [negb Booking.rideDateOf]. split.
    + split; [discriminate | intros [_ H]; discriminate H].
    + intros x y Hx Hy. injection Hx as <-. injection Hy as <-.
      repeat split; first [exact Hp | apply Qle_refl].
  - unfold Booking.calculateRefund. rewrite Hst. decide_status.
    cbn [negb Booking.rideDateOf]. split.
    + split; [now intros _ | reflexivity].
    + intros x y Hx. discriminate Hx.
  - rewrite !calculateRefund_ms by exact Hst. split.
    + split; [|intros [_ H]; discriminate H].
      destruct (24 * 3600000 <? d - now), (2 * 3600000 <? d - now); discriminate.
    + intros x y.
      destruct (24 * 3600000 <? d - now) eqn:A1, (2 * 3600000 <? d - now) eqn:A2,
               (24 * 3600000 <? d - later) eqn:B1, (2 * 3600000 <? d - later) eqn:B2;
        intros Hx Hy; injection Hx as <-; injection Hy as <-;
        bools; try lia; repeat split;
        first [ exact Hp | exact Hh0 | exact Hh1 | apply Qle_refl ].
  - rewrite !calculateRefund_not_due by exact Hst. split.
    + split; [discriminate | intros [H _]; contradiction].
    + intros x y Hx Hy. injection Hx as <-. injection Hy as <-.
      repeat split; first [exact Hp | apply Qle_refl].
Qed.

(** A cancelled booking of 500, 25 hours and then 10 hours ahead. *)
Lemma calculateRefund_bounded_and_decreasing_witness :
  let b := Sample.bookingOf "b1" "A" 5 Booking.cancelled in
  let d := 30 * Sample.day in
  (Booking.totalPrice b * (1 # 2) <= Booking.totalPrice b)%Q.
Proof.
  intros b d.
  destruct (calculateRefund_bounded_and_decreasing b (Booking.populatedWith d)
              (d - 25 * Js.msPerHour) (d - 10 * Js.msPerHour))
    as (_ & H); [discriminate | vm_compute; discriminate | ].
  exact (proj2 (proj2 (H (Booking.totalPrice b)
                         (Booking.totalPrice b * (1 # 2))%Q eq_refl eq_refl))).
Defined.

(** X9.  While [canBeCancelled] accepts a booking, [calculateRefund] on that
    booking is 0, for the status is not yet cancelled; once the status is set
    to cancelled the refund is the tier amount, which is 0 when two hours or
    less remain: between two hours and one hour before the ride a booking is
    accepted for cancellation and refunded nothing. *)
Theorem canBeCancelled_then_refund (b : Booking.t) (d now : Date) :
  Booking.canBeCancelled b (Booking.populatedWith d) now = Booking.returns true ->
  Booking.calculateRefund b (Booking.populatedWith d) now = Booking.returns 0%Q
  /\ 1 * 3600000 < d - now
  /\ (d - now <= 2 * 3600000 ->
      Booking.calculateRefund (Booking.set_status Booking.cancelled b)
        (Booking.populatedWith d) now
      = Booking.returns 0%Q)
  /\ (24 * 3600000 < d - now ->
      Booking.calculateRefund (Booking.set_status Booking.cancelled b)
        (Booking.populatedWith d) now
      = Booking.returns (Booking.totalPrice b)).
Proof.
  intros H. apply canBeCancelled_true_iff in H. destruct H as (Hd & Hact & _).
  unfold Js.msPerHour in Hd.
  repeat split.
  - apply calculateRefund_not_due. intros E. rewrite E in Hact. discriminate.
  - lia.
  - intros Hle. rewrite calculateRefund_ms by reflexivity.
    rewrite (proj2 (Z.ltb_ge _ _) Hle).
    assert (H24 : d - now <= 24 * 3600000) by lia.
    now rewrite (proj2 (Z.ltb_ge _ _) H24).
  - intros Hgt. rewrite calculateRefund_ms by reflexivity.
    now rewrite (proj2 (Z.ltb_lt _ _) Hgt).
Qed.

(** A confirmed booking, ninety minutes ahead of the ride. *)
Lemma canBeCancelled_then_refund_witness :
  let b := Sample.bookingOf "b1" "A" 5 Booking.confirmed in
  let d := 30 * Sample.day in
  Booking.calculateRefund (Booking.set_status Booking.cancelled b)
    (Booking.populatedWith d) (d - 5400000) = Booking.returns 0%Q.
Proof.
  intros b d.
  destruct (canBeCancelled_then_refund b d (d - 5400000) eq_refl)
    as (_ & _ & H & _).
  apply H. vm_compute. discriminate.
Defined.

(** ** Steps of the handlers *)

Lemma bind_next {A B} (m : Handler A) (k : A -> Handler B) (db db' : DB) (a : A) :
  m db = (db', Next a) -> bind m k db = k a db'.
Proof. unfold bind. now intros ->. Qed.

Lemma bind_thrown {A B} (m : Handler A) (k : A -> Handler B) (db db' : DB)
    (e : Error) :
  m db = (db', Thrown e) -> bind m k db = (db', Thrown e).
Proof. unfold bind. now intros ->. Qed.

Lemma bind_sent {A B} (m : Handler A) (k : A -> Handler B) (db db' : DB)
    (r : Response) :
  m db = (db', Sent r) -> bind m k db = (db', Sent r).
Proof. unfold bind. now intros ->. Qed.

Lemma seats_out_of_range (l : list Ride.Passenger) :
  existsb (fun p => (Ride.seats p <? 1) || (4 <? Ride.seats p)) l
  = negb (forallb (fun p => (1 <=? Ride.seats p) && (Ride.seats p <=? 4)) l).
Proof.
  induction l as [|p l IH]; cbn; [reflexivity|].
  rewrite IH, negb_andb, negb_andb, !Z.leb_antisym, !negb_involutive.
  reflexivity.
Qed.

Lemma Ride_validate_spec (r : Ride.t) (db : DB) :
  if Ride_isValid r then Ride_validate r db = (db, Next tt)
  else exists e, Ride_validate r db = (db, Thrown e).
Proof.
  unfold Ride_isValid, Ride_validate, bind, throwIf, throw, ret.
  pose proof (seats_out_of_range (Ride.passengers r)) as He.
  rewrite He.
  rewrite (Z.leb_antisym (Ride.availableSeats r) 1),
          (Z.leb_antisym 10 (Ride.availableSeats r)).
  destruct (Ride.availableSeats r <? 1); cbn; [eauto|].
  destruct (10 <? Ride.availableSeats r); cbn; [eauto|].
  destruct (Qle_bool 10 (Ride.pricePerSeat r)); cbn; [|eauto].
  destruct (Qle_bool (Ride.pricePerSeat r) 5000); cbn; [|eauto].
  destruct (forallb _ _); cbn; eauto.
Qed.

Lemma Booking_validate_spec (b : Booking.t) (db : DB) :
  if Booking_isValid b then Booking_validate b db = (db, Next tt)
  else exists e, Booking_validate b db = (db, Thrown e).
Proof.
  unfold Booking_isValid, Booking_validate, bind, throwIf, throw, ret.
  rewrite (Z.leb_antisym (Booking.seatsBooked b) 1),
          (Z.leb_antisym 10 (Booking.seatsBooked b)).
  destruct (Booking.seatsBooked b <? 1); cbn; [eauto|].
  destruct (10 <? Booking.seatsBooked b); cbn; [eauto|].
  destruct (Qle_bool 0 (Booking.totalPrice b)); cbn; [|eauto].
  destruct (Booking.pickupAddress b =? "")%string; cbn; eauto.
Qed.

Lemma Ride_save_valid (now : Date) (r stored : Ride.t) (ch : RosterChange) (db : DB) :
  Ride_isValid r = true ->
  rides db !! Ride._id r = Some stored ->
  Ride_save now r ch db
  = (mkDB (<[Ride._id r :=
              Ride.set_passengers
                (match ch with
                 | Untouched => Ride.passengers stored
                 | Pushed p => Ride.passengers stored ++ [p]
                 | Assigned => Ride.passengers r
                 end) (Ride.updateStatus now r)]> (rides db))
          (bookings db),
     Next (Ride.updateStatus now r)).
Proof.
  intros Hv Hs. unfold Ride_save, bind.
  pose proof (Ride_validate_spec r db) as Hval. rewrite Hv in Hval.
  rewrite Hval.
  destruct (updateStatus_frame now r) as (_ & Hp & Hid & _).
  rewrite !Hid, Hs, Hp. reflexivity.
Qed.

Lemma Ride_save_invalid (now : Date) (r : Ride.t) (ch : RosterChange) (db : DB) :
  Ride_isValid r = false ->
  exists e, Ride_save now r ch db = (db, Thrown e).
Proof.
  intros Hv. unfold Ride_save, bind.
  pose proof (Ride_validate_spec r db) as Hval. rewrite Hv in Hval.
  destruct Hval as [e ->]. eauto.
Qed.

Lemma Ride_findById_visible (id : ObjectId) (r : Ride.t) (db : DB) :
  rides db !! id = Some r -> Ride.status r <> Ride.cancelled ->
  Ride_findById id db = (db, Next (Some r)).
Proof.
  intros Hr Hst. unfold Ride_findById, Ride_preFind.
  now rewrite Hr, (bool_decide_eq_false_2 _ Hst).
Qed.

Lemma Ride_findById_hidden (id : ObjectId) (db : DB) :
  (rides db !! id = None
   \/ exists r, rides db !! id = Some r /\ Ride.status r = Ride.cancelled) ->
  Ride_findById id db = (db, Next None).
Proof.
  unfold Ride_findById, Ride_preFind. intros [-> | (r & -> & ->)]; reflexivity.
Qed.

Lemma set_passengers_same (r : Ride.t) :
  Ride.set_passengers (Ride.passengers r) r = r.
Proof. now destruct r. Qed.

Lemma updateStatus_untouched (now : Date) (r : Ride.t) (st : Ride.Status) :
  Ride.set_passengers (Ride.passengers r)
    (Ride.updateStatus now (Ride.set_status st r))
  = Ride.updateStatus now (Ride.set_status st r).
Proof.
  destruct (updateStatus_frame now (Ride.set_status st r)) as (_ & Hp & _).
  rewrite <- (set_passengers_same (Ride.updateStatus now (Ride.set_status st r)))
    at 2.
  now rewrite Hp.
Qed.

(** ** [cancelRide] in general *)


(** ** Cancelled rides *)

(** X11.  A cancelled ride is out of reach of the handlers: the pre-find hook
    hides it, so [cancelRide], [updateRideStatus] (with any of the three
    accepted statuses), [getAvailableSeats] and a [bookRide] naming seats and
    a pickup point all answer 404 'Ride not found' and leave the store as it
    was.  In particular no request puts a cancelled ride back to active. *)
Theorem cancelled_ride_is_final (now : Date) (db : DB) (id : ObjectId) (r : Ride.t) :
  rides db !! id = Some r ->
  Ride.status r = Ride.cancelled ->
  (forall user,
      cancelRide now (Build_CancelRideRequest id user) db
      = (db, reply 404 RideNotFound))
  /\ (forall user st,
        requestedStatus st <> None ->
        updateRideStatus now (Build_UpdateStatusRequest id user st) db
        = (db, (404, StatusRideNotFound)))
  /\ getAvailableSeats id db = (db, (404, SeatsRideNotFound))
  /\ (forall req n p,
        br_rideId req = id -> br_seats req = Some n -> 1 <= n ->
        br_pickupPoint req = Some p ->
        bookRide now req db = (db, reply 404 RideNotFound)).
Proof.
  intros Hr Hst.
  assert (Hfind : Ride_findById id db = (db, Next None)).
  { apply Ride_findById_hidden. right. eauto. }
  repeat split.
  - intros user. unfold cancelRide, tryCatch, bind, orReturn, send.
    cbn [cr_rideId]. now rewrite Hfind.
  - intros user st Hreq. unfold updateRideStatus, settle. cbn [us_status us_rideId].
    destruct (requestedStatus st); [|congruence]. now rewrite Hfind.
  - unfold getAvailableSeats, settle. now rewrite Hfind.
  - intros req n p Hid Hs Hn Hp.
    unfold bookRide, tryCatch, bind, orReturn, returnIf, send, ret.
    assert (Hz : (n =? 0) || (n <? 1) = false).
    { apply orb_false_iff. split; [apply Z.eqb_neq | apply Z.ltb_ge]; lia. }
    rewrite Hs; cbv beta iota. rewrite Hz; cbv beta iota.
    rewrite Hp; cbv beta iota. now rewrite Hid, Hfind.
Qed.

(** The sample ride once cancelled, asked back to active by its driver. *)
Lemma cancelled_ride_is_final_witness :
  updateRideStatus Sample.tLate
    (Build_UpdateStatusRequest "r1" "driver" (Some "active"%string))
    (Sample.dbDone Ride.cancelled None)
  = (Sample.dbDone Ride.cancelled None, (404, StatusRideNotFound)).
Proof.
  destruct (cancelled_ride_is_final Sample.tLate (Sample.dbDone Ride.cancelled None)
              "r1" (Sample.rideDone Ride.cancelled) eq_refl eq_refl)
    as (_ & H & _).
  apply H. discriminate.
Defined.

(** ** [updateRideStatus] in general *)


(** ** [cancelBooking] in general *)


(** ** [bookRide] in general *)

Lemma findOne_none (db : DB) (q : Booking.t -> bool) :
  (forall id b, bookings db !! id = Some b -> q b = false) ->
  List.find q (map_to_list (bookings db)).*2 = None.
Proof.
  intros Hq. destruct (List.find q _) as [b|] eqn:Hfind; [|reflexivity].
  apply List.find_some in Hfind. destruct Hfind as [Hin Hb].
  apply list_elem_of_In, list_elem_of_fmap in Hin.
  destruct Hin as ([id b'] & -> & Hin). apply elem_of_map_to_list in Hin.
  cbn in Hb. rewrite (Hq _ _ Hin) in Hb. discriminate.
Qed.

(** What [Booking.create] does with a confirmed booking on a stored, not
    cancelled ride: it stores the booking, its address trimmed, and applies
    the post-save hook to the ride when the booking is valid, the seats are
    there, the ride is active and the passenger holds no active booking on
    it; it throws before writing anything otherwise. *)
Lemma Booking_create_confirmed (now : Date) (data : Booking.t) (db : DB) (r : Ride.t) :
  rides db !! Booking.ride data = Some r ->
  Ride.status r <> Ride.cancelled ->
  Booking.status data = Booking.confirmed ->
  if Booking_isValid (Booking_cast data)
     && (Booking.seatsBooked data <=? Ride.availableSeats r)
     && bool_decide (Ride.status r = Ride.active)
     && negb (bool_decide
                (is_Some (List.find (activeBookingOf (Booking.ride data)
                                                     (Booking.passenger data))
                                    (map_to_list (bookings db)).*2)))
  then Booking_create now data db
       = (mkDB (<[Booking.ride data := hookedRide now (Booking_cast data) r]>
                  (rides db))
               (<[Booking._id data := Booking_cast data]> (bookings db)),
          Next (Booking_cast data))
  else exists e, Booking_create now data db = (db, Thrown e).
Proof.
  intros Hr Hvis Hst. unfold Booking_create. cbv zeta.
  set (doc := Booking_cast data).
  assert (Hdoc : Booking.ride doc = Booking.ride data
                 /\ Booking.passenger doc = Booking.passenger data
                 /\ Booking.seatsBooked doc = Booking.seatsBooked data
                 /\ Booking.status doc = Booking.status data
                 /\ Booking._id doc = Booking._id data)
    by (repeat split; reflexivity).
  destruct Hdoc as (Hride & Hpass & Hseats & Hstatus & Hident).
  rewrite <- Hride, <- Hpass, <- Hseats, <- Hident. rewrite <- Hride in Hr.
  rewrite <- Hstatus in Hst. clearbody doc.
  pose proof (Booking_validate_spec doc db) as Hval.
  destruct (Booking_isValid doc); cbn [andb];
    [|destruct Hval as [e He]; exists e; now rewrite (bind_thrown _ _ _ _ _ He)].
  rewrite (bind_next _ _ _ _ _ Hval).
  assert (Hpre : Booking_preSave doc true db
                 = if Ride.availableSeats r <? Booking.seatsBooked doc
                   then (db, Thrown (OnlySeatsAvailableError (Ride.availableSeats r)))
                   else if negb (bool_decide (Ride.status r = Ride.active))
                        then (db, Thrown (CannotBookError (Ride.status r)))
                        else (db, Next tt)).
  { unfold Booking_preSave.
    rewrite (bind_next _ _ _ _ _ (Ride_findById_visible _ _ _ Hr Hvis)).
    unfold bind, throwIf, throw, ret.
    destruct (_ <? _); [reflexivity|]. now destruct (negb _). }
  rewrite Z.leb_antisym.
  destruct (Ride.availableSeats r <? Booking.seatsBooked doc) eqn:Hlt;
    cbn [negb andb];
    [eexists; now rewrite (bind_thrown _ _ _ _ _ Hpre)|].
  destruct (bool_decide (Ride.status r = Ride.active)) eqn:Hact;
    cbn [negb andb] in *;
    [|eexists; now rewrite (bind_thrown _ _ _ _ _ Hpre)].
  rewrite (bind_next _ _ _ _ _ Hpre).
  unfold Booking_findOne, bind, throwIf, throw, ret. cbv beta iota.
  rewrite Hst. cbn [Booking.isActive andb].
  destruct (List.find _ _) as [clash|] eqn:Hfind.
  - rewrite !bool_decide_eq_true_2 by eauto. cbn [negb]. eexists. reflexivity.
  - rewrite !bool_decide_eq_false_2 by apply is_Some_None. cbn [negb].
    unfold Booking_write, Booking_postSave.
    rewrite (bool_decide_eq_true_2 _ Hst).
    unfold swallow, Ride_findByIdAndUpdate. cbn [rides bookings].
    rewrite Hr. unfold Ride_preFind.
    rewrite (bool_decide_eq_false_2 _ Hvis). reflexivity.
Qed.

(** Past its guards, [bookRide] is [Booking.create] followed by [ride.save()]. *)
Lemma bookRide_past_guards
    (now : Date) (req : BookRideRequest) (db : DB) (n : Z) (p : PickupPoint)
    (r : Ride.t) :
  br_seats req = Some n -> 1 <= n < 10 ^ 21 ->
  br_pickupPoint req = Some p ->
  rides db !! br_rideId req = Some r ->
  Ride.status r = Ride.active ->
  n <= Ride.availableSeats r ->
  Ride.driver r <> br_user req ->
  List.find (activeBookingOf (br_rideId req) (br_user req))
            (map_to_list (bookings db)).*2 = None ->
  bookRide now req db
  = match Booking_create now (bookingData now req n p r) db with
    | (db1, Next b) =>
        match Ride_save now
                (bookedRide (Ride.mkPassenger (br_user req) now (Some (address p))
                               n Ride.p_confirmed (Booking._id b)) n r)
                (Pushed (Ride.mkPassenger (br_user req) now (Some (address p))
                           n Ride.p_confirmed (Booking._id b))) db1 with
        | (db2, Next _) => (db2, reply 200 (RideBooked b))
        | (db2, Sent resp) => (db2, resp)
        | (db2, Thrown e) => (db2, reply 500 (ErrorBookingRide e))
        end
    | (db1, Sent resp) => (db1, resp)
    | (db1, Thrown e) => (db1, reply 500 (ErrorBookingRide e))
    end.
Proof.
  intros Hs Hn Hp Hr Hact Hle Hd Hfind.
  assert (Hz : (n =? 0) || (n <? 1) = false).
  { apply orb_false_iff. split; [apply Z.eqb_neq | apply Z.ltb_ge]; lia. }
  assert (Hvis : Ride_preFind r = true).
  { unfold Ride_preFind. rewrite Hact. reflexivity. }
  unfold bookRide. unfold_handler.
  rewrite Hs; cbv beta iota. rewrite Hz; cbv beta iota.
  rewrite Hp; cbv beta iota. rewrite Hr, Hvis; cbv beta iota.
  rewrite (bool_decide_eq_true_2 _ Hact). cbn [negb]; cbv beta iota.
  rewrite parseIntNumber_small by lia.
  rewrite (proj2 (Z.ltb_ge _ _) Hle); cbv beta iota.
  rewrite (proj2 (String.eqb_neq _ _) Hd); cbv beta iota.
  rewrite Hfind. rewrite bool_decide_eq_false_2 by apply is_Some_None.
  cbv beta iota.
  fold (bookingData now req n p r).
  destruct (Booking_create now (bookingData now req n p r) db) as [db1 [b|resp|e]];
    try reflexivity.
  unfold bookedRide. cbv zeta.
  destruct (Ride_save _ _ _ db1) as [db2 [x|resp|e]]; reflexivity.
Qed.

Lemma Ride_isValid_iff (r : Ride.t) :
  Ride_isValid r = true
  <-> 1 <= Ride.availableSeats r <= 10
      /\ Qle_bool 10 (Ride.pricePerSeat r) = true
      /\ Qle_bool (Ride.pricePerSeat r) 5000 = true
      /\ forallb (fun p => (1 <=? Ride.seats p) && (Ride.seats p <=? 4))
                 (Ride.passengers r) = true.
Proof.
  unfold Ride_isValid. rewrite !andb_true_iff, !Z.leb_le. tauto.
Qed.

Lemma totalPrice_not_negative (n : Z) (price : Q) :
  1 <= n -> Qle_bool 10 price = true -> Qle_bool 0 (inject_Z n * price) = true.
Proof.
  intros Hn Hp. apply Qle_bool_iff. apply Qle_bool_iff in Hp.
  apply Qmult_le_0_compat.
  - change 0%Q with (inject_Z 0). rewrite <- Zle_Qle. lia.
  - eapply Qle_trans; [|exact Hp]. discriminate.
Qed.

(** The booking [bookRide] creates is valid when its trimmed pickup address
    is not empty. *)
Lemma newBooking_valid
    (now : Date) (req : BookRideRequest) (n : Z) (p : PickupPoint) (r : Ride.t) :
  1 <= n <= 10 -> Qle_bool 10 (Ride.pricePerSeat r) = true ->
  Text.trim (address p) <> EmptyString ->
  Booking_isValid (newBooking now req n p r) = true.
Proof.
  intros Hn Hp10 Haddr. unfold Booking_isValid.
  change (Booking.seatsBooked (newBooking now req n p r)) with n.
  change (Booking.totalPrice (newBooking now req n p r))
    with (inject_Z n * Ride.pricePerSeat r)%Q.
  change (Booking.pickupAddress (newBooking now req n p r))
    with (Text.trim (address p)).
  rewrite (totalPrice_not_negative n _ ltac:(lia) Hp10).
  rewrite (proj2 (String.eqb_neq _ _) Haddr).
  rewrite (proj2 (Z.leb_le 1 n)), (proj2 (Z.leb_le n 10)) by lia. reflexivity.
Qed.

(** [Booking.create] inside [bookRide], once the guards are passed and the
    booking is valid. *)
Lemma bookRide_creates
    (now : Date) (req : BookRideRequest) (db : DB) (n : Z) (p : PickupPoint)
    (r : Ride.t) :
  rides db !! br_rideId req = Some r ->
  Ride.status r = Ride.active ->
  n <= Ride.availableSeats r ->
  Booking_isValid (newBooking now req n p r) = true ->
  List.find (activeBookingOf (br_rideId req) (br_user req))
            (map_to_list (bookings db)).*2 = None ->
  Booking_create now (bookingData now req n p r) db
  = (mkDB (<[br_rideId req := hookedRide now (newBooking now req n p r) r]>
             (rides db))
          (<[br_newId req := newBooking now req n p r]> (bookings db)),
     Next (newBooking now req n p r)).
Proof.
  intros Hr Hact Hle Hbv Hfind.
  assert (Hvis : Ride.status r <> Ride.cancelled) by (rewrite Hact; discriminate).
  pose proof (Booking_create_confirmed now (bookingData now req n p r) db r
                Hr Hvis eq_refl) as Hcreate.
  fold (newBooking now req n p r) in Hcreate. rewrite Hbv in Hcreate.
  change (Booking.seatsBooked (bookingData now req n p r)) with n in Hcreate.
  change (Booking.ride (bookingData now req n p r)) with (br_rideId req) in Hcreate.
  change (Booking.passenger (bookingData now req n p r))
    with (br_user req) in Hcreate.
  change (Booking._id (bookingData now req n p r)) with (br_newId req) in Hcreate.
  rewrite (proj2 (Z.leb_le n _) Hle), (bool_decide_eq_true_2 _ Hact), Hfind
    in Hcreate.
  rewrite bool_decide_eq_false_2 in Hcreate by apply is_Some_None.
  exact Hcreate.
Qed.

(** X14.  A [bookRide] that passes every guard on a valid ride with a whole
    price per seat, for one to four seats and fewer than the seats
    available, with a pickup address that is not blank, is answered 200 with
    a confirmed booking whose total price is seats times price per seat and
    whose pickup address is the trimmed one; the booking is stored under its
    identifier, [availableSeats] falls by exactly the seats booked and stays
    positive, and the roster gains two entries for the booking, the one of
    the post-save hook and the one the handler pushes, so that the seats
    held grow by twice the seats booked.  The ride is marked full exactly
    when the seats left do not exceed the seats then held in memory. *)
Theorem bookRide_effects
    (now : Date) (req : BookRideRequest) (db : DB) (n k : Z) (p : PickupPoint)
    (r : Ride.t) :
  br_seats req = Some n -> 1 <= n <= 4 ->
  br_pickupPoint req = Some p -> Text.trim (address p) <> EmptyString ->
  rides db !! br_rideId req = Some r ->
  Ride._id r = br_rideId req ->
  Ride.status r = Ride.active ->
  Ride_isValid r = true ->
  Ride.pricePerSeat r = inject_Z k ->
  n < Ride.availableSeats r ->
  Ride.driver r <> br_user req ->
  (forall id b, bookings db !! id = Some b ->
                activeBookingOf (br_rideId req) (br_user req) b = false) ->
  let after := bookRide now req db in
  let b := newBooking now req n p r in
  snd after = reply 200 (RideBooked b)
  /\ Booking.totalPrice b = inject_Z (n * k)
  /\ Booking.pickupAddress b = Text.trim (address p)
  /\ Booking.status b = Booking.confirmed
  /\ bookings (fst after) = <[br_newId req := b]> (bookings db)
  /\ exists r',
      rides (fst after) = <[br_rideId req := r']> (rides db)
      /\ Ride.availableSeats r' = Ride.availableSeats r - n
      /\ 1 <= Ride.availableSeats r'
      /\ Ride.passengers r'
         = Ride.passengers r ++ [hookEntry now b; pushedEntry now req n p]
      /\ Ride.bookedSeats r' = Ride.bookedSeats r + 2 * n
      /\ (Ride.status r' = Ride.full
          <-> Ride.availableSeats r - n <= Ride.bookedSeats r + n).
Proof.
  intros Hs Hn Hp Haddr Hr Hid Hact Hv Hprice Hlt Hd Hnone after b. subst after.
  apply Ride_isValid_iff in Hv. destruct Hv as (Hav & Hp10 & Hp5000 & Hroster).
  pose proof (findOne_none db _ Hnone) as Hfind.
  assert (Hbig : 1 <= n < 10 ^ 21) by (split; [lia|]; apply Z.le_lt_trans with 4;
                                        [lia | reflexivity]).
  rewrite (bookRide_past_guards now req db n p r Hs Hbig Hp Hr Hact
             ltac:(lia) Hd Hfind).
  assert (Hbv : Booking_isValid b = true)
    by (apply newBooking_valid; [lia | exact Hp10 | exact Haddr]).
  rewrite (bookRide_creates now req db n p r Hr Hact ltac:(lia) Hbv Hfind).
  fold b. change (Booking._id b) with (br_newId req).
  fold (pushedEntry now req n p).
  set (entry := pushedEntry now req n p).
  set (ride' := bookedRide entry n r).
  set (db1 := mkDB _ _).
  assert (Hride' : ride' = Ride.set_passengers (Ride.passengers r ++ [entry])
                             (Ride.set_availableSeats (Ride.availableSeats r - n) r)).
  { subst ride'. unfold bookedRide. cbv zeta.
    cbn [Ride.availableSeats Ride.set_passengers Ride.set_availableSeats].
    now rewrite (proj2 (Z.eqb_neq _ 0)) by lia. }
  assert (Hv' : Ride_isValid ride' = true).
  { apply Ride_isValid_iff. rewrite Hride'.
    cbn [Ride.availableSeats Ride.pricePerSeat Ride.passengers
         Ride.set_passengers Ride.set_availableSeats].
    repeat split; try assumption; try lia.
    rewrite forallb_app, Hroster. cbn.
    now rewrite (proj2 (Z.leb_le 1 n)), (proj2 (Z.leb_le n 4)) by lia. }
  assert (Hstored : rides db1 !! Ride._id ride' = Some (hookedRide now b r)).
  { rewrite Hride'. cbn [Ride._id Ride.set_passengers Ride.set_availableSeats].
    rewrite Hid. subst db1. cbn [rides]. apply lookup_insert_eq. }
  rewrite (Ride_save_valid now ride' _ (Pushed entry) db1 Hv' Hstored).
  cbn [fst snd]. subst db1. cbn [rides bookings].
  split; [reflexivity|]. split.
  { change (Booking.totalPrice b) with (inject_Z n * Ride.pricePerSeat r)%Q.
    rewrite Hprice. reflexivity. }
  split; [reflexivity|]. split; [reflexivity|]. split; [reflexivity|].
  eexists. split.
  { rewrite Hride' at 1.
    cbn [Ride._id Ride.set_passengers Ride.set_availableSeats].
    rewrite Hid. apply insert_insert_eq. }
  destruct (updateStatus_frame now ride') as (Ha & Hps & _).
  cbn [Ride.availableSeats Ride.passengers Ride.set_passengers].
  assert (Havail : Ride.availableSeats (Ride.updateStatus now ride')
                   = Ride.availableSeats r - n) by (rewrite Ha, Hride'; reflexivity).
  assert (Hpass : Ride.passengers (hookedRide now b r) ++ [entry]
                  = Ride.passengers r ++ [hookEntry now b; entry]).
  { unfold hookedRide. cbn [Ride.passengers Ride.set_passengers].
    now rewrite <- app_assoc. }
  split; [exact Havail|]. split; [lia|]. split; [exact Hpass|]. split.
  - unfold Ride.bookedSeats.
    cbn [Ride.passengers Ride.set_passengers]. rewrite Hpass.
    fold (heldSeats (Ride.passengers r ++ [hookEntry now b; entry])).
    fold (heldSeats (Ride.passengers r)).
    rewrite heldSeats_app, !heldSeats_cons. change (heldSeats []) with 0.
    cbn. lia.
  - change (Ride.status (Ride.set_passengers _ ?x)) with (Ride.status x).
    rewrite updateStatus_status. unfold Ride.isFull.
    assert (Hrem : Ride.remainingSeats ride'
                   = Ride.availableSeats r - n - (Ride.bookedSeats r + n)).
    { rewrite Hride'. unfold Ride.remainingSeats.
      rewrite !bookedSeats_heldSeats.
      cbn [Ride.availableSeats Ride.passengers Ride.set_passengers
           Ride.set_availableSeats].
      rewrite heldSeats_app, heldSeats_cons. change (heldSeats []) with 0.
      cbn. lia. }
    rewrite Hrem.
    assert (Hst' : Ride.status ride' = Ride.active) by (now rewrite Hride').
    rewrite Hst'.
    destruct (_ <=? 0) eqn:Hle; bools.
    + split; [lia | reflexivity].
    + split; [|lia]. destruct (Ride.isPast ride' now); discriminate.
Qed.

(** Passenger B books one seat of the untouched three-seat ride. *)
Lemma bookRide_effects_witness :
  snd (bookRide Sample.t0 (Sample.book "B" "b2" 1) Sample.db0)
  = reply 200 (RideBooked (Sample.bookingOf "b2" "B" 1 Booking.confirmed)).
Proof.
  destruct (bookRide_effects Sample.t0 (Sample.book "B" "b2" 1) Sample.db0 1 100
              {| address := "Main gate" |} Sample.ride0)
    as (H & _);
    [ reflexivity | lia | reflexivity | discriminate | reflexivity | reflexivity
    | reflexivity | reflexivity | reflexivity | reflexivity | discriminate
    | intros id b Hb;
      change (bookings Sample.db0) with (∅ : gmap string Booking.t) in Hb;
      rewrite lookup_empty in Hb; discriminate
    | exact H ].
Defined.

(** X15.  A [bookRide] that passes every guard, with a pickup address that
    is not blank and a whole price per seat, but takes all the seats left,
    or more than four seats, is answered 500 'Error booking ride' and yet
    leaves its marks: [Booking.create] has stored the confirmed booking and
    its post-save hook has taken the seats off the stored ride and added the
    roster entry, after which [ride.save()] is refused by the schema
    validators ([availableSeats] at least 1, at most 4 seats per entry).
    The stored ride keeps its status 'active'. *)
Theorem bookRide_last_seats
    (now : Date) (req : BookRideRequest) (db : DB) (n k : Z) (p : PickupPoint)
    (r : Ride.t) :
  br_seats req = Some n -> 1 <= n <= 10 ->
  br_pickupPoint req = Some p -> Text.trim (address p) <> EmptyString ->
  rides db !! br_rideId req = Some r ->
  Ride.status r = Ride.active ->
  Ride.pricePerSeat r = inject_Z k -> 10 <= k ->
  n <= Ride.availableSeats r ->
  n = Ride.availableSeats r \/ 4 < n ->
  Ride.driver r <> br_user req ->
  (forall id b, bookings db !! id = Some b ->
                activeBookingOf (br_rideId req) (br_user req) b = false) ->
  let after := bookRide now req db in
  let b := newBooking now req n p r in
  code (snd after) = 500
  /\ Booking.totalPrice b = inject_Z (n * k)
  /\ bookings (fst after) = <[br_newId req := b]> (bookings db)
  /\ rides (fst after) = <[br_rideId req := hookedRide now b r]> (rides db)
  /\ Ride.availableSeats (hookedRide now b r) = Ride.availableSeats r - n
  /\ Ride.status (hookedRide now b r) = Ride.active.
Proof.
  intros Hs Hn Hp Haddr Hr Hact Hprice Hk Hle Hcase Hd Hnone after b. subst after.
  pose proof (findOne_none db _ Hnone) as Hfind.
  assert (Hbig : 1 <= n < 10 ^ 21) by (split; [lia|]; apply Z.le_lt_trans with 10;
                                        [lia | reflexivity]).
  assert (Hp10 : Qle_bool 10 (Ride.pricePerSeat r) = true).
  { rewrite Hprice. apply Qle_bool_iff. change 10%Q with (inject_Z 10).
    now rewrite <- Zle_Qle. }
  rewrite (bookRide_past_guards now req db n p r Hs Hbig Hp Hr Hact
             Hle Hd Hfind).
  assert (Hbv : Booking_isValid b = true)
    by (apply newBooking_valid; [lia | exact Hp10 | exact Haddr]).
  rewrite (bookRide_creates now req db n p r Hr Hact Hle Hbv Hfind).
  fold b. change (Booking._id b) with (br_newId req).
  fold (pushedEntry now req n p).
  set (entry := pushedEntry now req n p).
  set (ride' := bookedRide entry n r).
  set (db1 := mkDB _ _).
  assert (Hv' : Ride_isValid ride' = false).
  { apply not_true_iff_false. intros Hv. apply Ride_isValid_iff in Hv.
    destruct Hv as (Hav & _ & _ & Hroster).
    subst ride'. unfold bookedRide in Hav, Hroster. cbv zeta in Hav, Hroster.
    cbn [Ride.availableSeats Ride.set_passengers Ride.set_availableSeats]
      in Hav, Hroster.
    destruct (Ride.availableSeats r - n =? 0) eqn:Hz;
      cbn [Ride.availableSeats Ride.passengers Ride.set_status
           Ride.set_passengers Ride.set_availableSeats] in Hav, Hroster;
      rewrite forallb_app in Hroster; apply andb_true_iff in Hroster;
      destruct Hroster as [_ Hentry]; subst entry;
      cbn [forallb pushedEntry Ride.seats] in Hentry;
      rewrite !andb_true_iff, !Z.leb_le in Hentry;
      [apply Z.eqb_eq in Hz | apply Z.eqb_neq in Hz]; lia. }
  destruct (Ride_save_invalid now ride' (Pushed entry) db1 Hv') as [e He].
  rewrite He. cbn [fst snd code]. subst db1. cbn [rides bookings].
  split; [reflexivity|]. split.
  { change (Booking.totalPrice b) with (inject_Z n * Ride.pricePerSeat r)%Q.
    rewrite Hprice. reflexivity. }
  split; [reflexivity|]. split; [reflexivity|].
  split; [reflexivity | exact Hact].
Qed.

(** Passenger B asks for all three seats of the untouched ride. *)
Lemma bookRide_last_seats_witness :
  code (snd (bookRide Sample.t0 (Sample.book "B" "b2" 3) Sample.db0)) = 500
  /\ seatsOf (fst (bookRide Sample.t0 (Sample.book "B" "b2" 3) Sample.db0)) "r1"
     = Some 0.
Proof.
  destruct (bookRide_last_seats Sample.t0 (Sample.book "B" "b2" 3) Sample.db0 3 100
              {| address := "Main gate" |} Sample.ride0)
    as (Hcode & _ & _ & Hrides & _);
    [ reflexivity | lia | reflexivity | discriminate | reflexivity | reflexivity
    | reflexivity | lia | reflexivity | left; reflexivity | discriminate
    | intros id b Hb;
      change (bookings Sample.db0) with (∅ : gmap string Booking.t) in Hb;
      rewrite lookup_empty in Hb; discriminate
    | ].
  split; [exact Hcode|]. unfold seatsOf. rewrite Hrides. reflexivity.
Defined.

(** Either a guard of [bookRide] replied, with the store as it was, or the
    request is past all of them. *)
Lemma bookRide_cases (now : Date) (req : BookRideRequest) (db : DB) (r : Ride.t) :
  rides db !! br_rideId req = Some r ->
  (forall n, br_seats req = Some n -> n < 10 ^ 21) ->
  (fst (bookRide now req db) = db
   /\ 400 <= code (snd (bookRide now req db)) < 500)
  \/ exists n p,
       br_seats req = Some n /\ 1 <= n < 10 ^ 21 /\ br_pickupPoint req = Some p
       /\ Ride.status r = Ride.active /\ n <= Ride.availableSeats r
       /\ Ride.driver r <> br_user req
       /\ List.find (activeBookingOf (br_rideId req) (br_user req))
                    (map_to_list (bookings db)).*2 = None.
Proof.
  intros Hr Hbig. unfold bookRide. unfold_handler.
  destruct (br_seats req) as [n|] eqn:Hs; cbv beta iota;
    [|left; split; [reflexivity | cbn; lia]].
  specialize (Hbig n eq_refl).
  rewrite seats_guard.
  destruct (n <? 1) eqn:Hz; cbv beta iota;
    [left; split; [reflexivity | cbn; lia]|].
  apply Z.ltb_ge in Hz. rewrite parseIntNumber_small by lia.
  destruct (br_pickupPoint req) as [p|] eqn:Hp; cbv beta iota;
    [|left; split; [reflexivity | cbn; lia]].
  rewrite Hr.
  destruct (Ride_preFind r) eqn:Hvis; cbv beta iota;
    [|left; split; [reflexivity | cbn; lia]].
  destruct (bool_decide (Ride.status r = Ride.active)) eqn:Hact;
    cbn [negb]; cbv beta iota; [|left; split; [reflexivity | cbn; lia]].
  destruct (Ride.availableSeats r <? n) eqn:Hle; cbv beta iota;
    [left; split; [reflexivity | cbn; lia]|].
  destruct (String.eqb (Ride.driver r) (br_user req)) eqn:Hd; cbv beta iota;
    [left; split; [reflexivity | cbn; lia]|].
  destruct (List.find _ _) as [b|] eqn:Hfind.
  - rewrite bool_decide_eq_true_2 by eauto.
    left; split; [reflexivity | cbn; lia].
  - right. exists n, p. apply String.eqb_neq in Hd. bools.
    repeat split; try assumption; lia.
Qed.

(** X16.  Whatever the reply, a [bookRide] for a whole number of seats below
    1e21, or for none, on a stored ride leaves every other ride and every
    booking other than the new one as they were, and the seats of the
    requested ride are either unchanged or reduced by exactly the requested
    number, which is then at least 1 and at most the seats that were
    available: the counter never drops below zero.  A reply in the 4xx range
    leaves the whole store unchanged. *)
Theorem bookRide_frame
    (now : Date) (req : BookRideRequest) (db : DB) (r : Ride.t) :
  rides db !! br_rideId req = Some r ->
  Ride._id r = br_rideId req ->
  (forall n, br_seats req = Some n -> n < 10 ^ 21) ->
  let after := bookRide now req db in
  (forall id, id <> br_rideId req -> rides (fst after) !! id = rides db !! id)
  /\ (forall id, id <> br_newId req ->
                 bookings (fst after) !! id = bookings db !! id)
  /\ (exists r', rides (fst after) !! br_rideId req = Some r'
        /\ (Ride.availableSeats r' = Ride.availableSeats r
            \/ exists n, br_seats req = Some n
                 /\ 1 <= n <= Ride.availableSeats r
                 /\ Ride.availableSeats r' = Ride.availableSeats r - n))
  /\ (400 <= code (snd after) < 500 -> fst after = db).
Proof.
  intros Hr Hid Hbig after. subst after.
  destruct (bookRide_cases now req db r Hr Hbig)
    as [[Hsame _] | (n & p & Hs & Hn & Hp & Hact & Hle & Hd & Hfind)].
  { rewrite Hsame. split; [reflexivity|]. split; [reflexivity|].
    split; [exists r; auto | reflexivity]. }
  rewrite (bookRide_past_guards now req db n p r Hs Hn Hp Hr Hact Hle Hd Hfind).
  assert (Hvis : Ride.status r <> Ride.cancelled) by (rewrite Hact; discriminate).
  pose proof (Booking_create_confirmed now (bookingData now req n p r) db r
                Hr Hvis eq_refl) as Hcreate.
  fold (newBooking now req n p r) in Hcreate.
  set (b := newBooking now req n p r) in *.
  change (Booking.ride (bookingData now req n p r)) with (br_rideId req) in Hcreate.
  change (Booking._id (bookingData now req n p r)) with (br_newId req) in Hcreate.
  destruct (_ && _ && _ && _).
  2:{ destruct Hcreate as [e ->]. cbn [fst snd code].
      split; [reflexivity|]. split; [reflexivity|].
      split; [exists r; auto | reflexivity]. }
  rewrite Hcreate. change (Booking._id b) with (br_newId req).
  set (entry := Ride.mkPassenger _ _ _ _ _ _).
  set (ride' := bookedRide entry n r).
  set (db1 := mkDB _ _).
  assert (Hid' : Ride._id ride' = br_rideId req).
  { subst ride'. unfold bookedRide. cbv zeta.
    destruct (_ =? 0); destruct r; exact Hid. }
  assert (Hav' : Ride.availableSeats ride' = Ride.availableSeats r - n).
  { subst ride'. unfold bookedRide. cbv zeta.
    destruct (_ =? 0); destruct r; reflexivity. }
  destruct (Ride_isValid ride') eqn:Hv.
  - assert (Hst : rides db1 !! Ride._id ride' = Some (hookedRide now b r)).
    { rewrite Hid'. subst db1. cbn [rides]. apply lookup_insert_eq. }
    rewrite (Ride_save_valid now ride' _ (Pushed entry) db1 Hv Hst).
    rewrite Hid'. subst db1. cbn [fst snd code rides bookings].
    split; [|split; [|split]].
    + intros id Hne. now rewrite !lookup_insert_ne by congruence.
    + intros id Hne. now rewrite lookup_insert_ne by congruence.
    + eexists. split; [apply lookup_insert_eq|]. right. exists n.
      destruct (updateStatus_frame now ride') as (Hav & _).
      split; [exact Hs|]. split; [lia|].
      change (Ride.availableSeats (Ride.updateStatus now ride')
              = Ride.availableSeats r - n).
      now rewrite Hav.
    + lia.
  - destruct (Ride_save_invalid now ride' (Pushed entry) db1 Hv) as [e ->].
    subst db1. cbn [fst snd code rides bookings].
    split; [|split; [|split]].
    + intros id Hne. now rewrite lookup_insert_ne by congruence.
    + intros id Hne. now rewrite lookup_insert_ne by congruence.
    + eexists. split; [apply lookup_insert_eq|]. right. exists n.
      split; [exact Hs|]. split; [lia|]. reflexivity.
    + lia.
Qed.

(** Passenger A asks for two of the three seats. *)
Lemma bookRide_frame_witness :
  exists r', rides (fst (bookRide Sample.t0 (Sample.book "A" "b1" 2) Sample.db0))
               !! "r1" = Some r'
    /\ (Ride.availableSeats r' = 3
        \/ exists n, Some 2 = Some n /\ 1 <= n <= 3
             /\ Ride.availableSeats r' = 3 - n).
Proof.
  refine (proj1 (proj2 (proj2
           (bookRide_frame Sample.t0 (Sample.book "A" "b1" 2) Sample.db0
              Sample.ride0 eq_refl eq_refl _)))).
  intros n Hn. injection Hn as <-. reflexivity.
Defined.

(** ** The search helpers *)

Lemma isWhiteSpace_toLowerChar (c : ascii) :
  Js.isWhiteSpace (Text.toLowerChar c) = Js.isWhiteSpace c.
Proof. destruct c as [[] [] [] [] [] [] [] []]; reflexivity. Qed.

Lemma toLowerChar_idem (c : ascii) :
  Text.toLowerChar (Text.toLowerChar c) = Text.toLowerChar c.
Proof. destruct c as [[] [] [] [] [] [] [] []]; reflexivity. Qed.

Lemma toLowerCase_idem (s : string) :
  Text.toLowerCase (Text.toLowerCase s) = Text.toLowerCase s.
Proof.
  induction s as [|c s IH]; [reflexivity|].
  cbn [Text.toLowerCase]. now rewrite toLowerChar_idem, IH.
Qed.

Lemma toLowerCase_eqb_empty (s : string) :
  String.eqb (Text.toLowerCase s) EmptyString = String.eqb s EmptyString.
Proof. now destruct s. Qed.

Lemma toLowerCase_trimStart (s : string) :
  Text.toLowerCase (Js.trimStart s) = Js.trimStart (Text.toLowerCase s).
Proof.
  induction s as [|c s IH]; [reflexivity|].
  cbn [Text.toLowerCase Js.trimStart]. rewrite isWhiteSpace_toLowerChar.
  now destruct (Js.isWhiteSpace c).
Qed.

Lemma trimEnd_cons (c : ascii) (s : string) :
  Text.trimEnd (String c s)
  = match Text.trimEnd s with
    | EmptyString =>
        if Js.isWhiteSpace c then EmptyString else String c EmptyString
    | t => String c t
    end.
Proof. reflexivity. Qed.

Lemma toLowerCase_trimEnd (s : string) :
  Text.toLowerCase (Text.trimEnd s) = Text.trimEnd (Text.toLowerCase s).
Proof.
  induction s as [|c s IH]; [reflexivity|].
  change (Text.toLowerCase (String c s))
    with (String (Text.toLowerChar c) (Text.toLowerCase s)).
  rewrite !trimEnd_cons, <- IH, isWhiteSpace_toLowerChar.
  destruct (Text.trimEnd s) as [|a t]; [|reflexivity].
  now destruct (Js.isWhiteSpace c).
Qed.

Lemma toLowerCase_trim (s : string) :
  Text.toLowerCase (Text.trim s) = Text.trim (Text.toLowerCase s).
Proof.
  unfold Text.trim. now rewrite toLowerCase_trimEnd, toLowerCase_trimStart.
Qed.

Lemma trimEnd_idem (s : string) :
  Text.trimEnd (Text.trimEnd s) = Text.trimEnd s.
Proof.
  induction s as [|c s IH]; [reflexivity|].
  rewrite trimEnd_cons. destruct (Text.trimEnd s) as [|a t] eqn:E.
  - destruct (Js.isWhiteSpace c) eqn:W; [reflexivity|].
    rewrite trimEnd_cons. cbn [Text.trimEnd]. now rewrite W.
  - rewrite trimEnd_cons, IH. reflexivity.
Qed.

(** A text without leading white space keeps none when its end is trimmed. *)
Lemma trimStart_trimEnd (s : string) :
  Js.trimStart (Text.trimEnd (Js.trimStart s)) = Text.trimEnd (Js.trimStart s).
Proof.
  induction s as [|c s IH]; [reflexivity|].
  cbn [Js.trimStart]. destruct (Js.isWhiteSpace c) eqn:W; [exact IH|].
  rewrite trimEnd_cons.
  destruct (Text.trimEnd s); rewrite ?W; cbn [Js.trimStart]; now rewrite W.
Qed.

Lemma trim_idem (s : string) : Text.trim (Text.trim s) = Text.trim s.
Proof.
  unfold Text.trim. now rewrite trimStart_trimEnd, trimEnd_idem.
Qed.

Lemma normalize_toLowerCase (s : string) :
  Search.normalize (Text.toLowerCase s) = Search.normalize s.
Proof. unfold Search.normalize. now rewrite toLowerCase_idem. Qed.

Lemma normalize_trim_toLowerCase (s : string) :
  Search.normalize (Text.trim (Text.toLowerCase s)) = Search.normalize s.
Proof.
  unfold Search.normalize.
  now rewrite toLowerCase_trim, toLowerCase_idem, trim_idem.
Qed.

Lemma matchingWords_positive (found : string -> bool) (l : list string) (k : Z) :
  0 <= k ->
  (0 <? fold_left (fun count w => if found w then count + 1 else count) l k)
  = (0 <? k) || existsb found l.
Proof.
  revert k. induction l as [|w l IH]; intros k Hk; cbn [fold_left existsb].
  - now rewrite orb_false_r.
  - destruct (found w); cbn [orb].
    + rewrite IH by lia. rewrite (proj2 (Z.ltb_lt 0 (k + 1))) by lia.
      now rewrite orb_true_r.
    + now apply IH.
Qed.

(** The decision of [enhancedFuzzyMatch] in one formula. *)
Lemma enhancedFuzzyMatch_spec (a b : string) :
  Search.enhancedFuzzyMatch a b
  = negb (String.eqb a EmptyString) && negb (String.eqb b EmptyString)
    && (String.eqb (Search.normalize a) (Search.normalize b)
        || Text.includes (Search.normalize b) (Search.normalize a)
        || Text.includes (Search.normalize a) (Search.normalize b)
        || existsb (fun sw => existsb (Search.wordMatch sw)
                                (Search.meaningfulWords (Search.normalize b)))
                   (Search.meaningfulWords (Search.normalize a))).
Proof.
  unfold Search.enhancedFuzzyMatch. cbv zeta.
  destruct (String.eqb a EmptyString); [reflexivity|].
  destruct (String.eqb b EmptyString); [reflexivity|]. cbn [orb negb andb].
  destruct (String.eqb (Search.normalize a) (Search.normalize b));
    [reflexivity|].
  destruct (Text.includes (Search.normalize b) (Search.normalize a));
    [reflexivity|].
  destruct (Text.includes (Search.normalize a) (Search.normalize b));
    [reflexivity|]. cbn [orb].
  rewrite matchingWords_positive by lia. cbn [orb].
  destruct (Search.meaningfulWords (Search.normalize a)) as [|sw sws];
    [reflexivity|].
  destruct (Search.meaningfulWords (Search.normalize b)) as [|rw rws];
    [|reflexivity].
  cbn [List.length Nat.eqb orb]. symmetry.
  generalize (sw :: sws). intros l. now induction l.
Qed.

Lemma existsb_swap {A B} (f : A -> B -> bool) (l1 : list A) (l2 : list B) :
  existsb (fun x => existsb (f x) l2) l1
  = existsb (fun y => existsb (fun x => f x y) l1) l2.
Proof.
  induction l1 as [|x l1 IH]; cbn [existsb].
  - now induction l2.
  - rewrite IH. clear IH. induction l2 as [|y l2 IH2]; [reflexivity|].
    cbn [existsb]. rewrite <- IH2.
    destruct (f x y), (existsb (f x) l2),
      (existsb (fun x0 => f x0 y) l1); reflexivity.
Qed.

Lemma includes_empty (s : string) : Text.includes s EmptyString = true.
Proof. now destruct s. Qed.

Lemma enhancedFuzzyMatch_toLowerCase (a b : string) :
  Search.enhancedFuzzyMatch (Text.toLowerCase a) (Text.toLowerCase b)
  = Search.enhancedFuzzyMatch a b.
Proof.
  rewrite !enhancedFuzzyMatch_spec, !toLowerCase_eqb_empty,
    !normalize_toLowerCase. reflexivity.
Qed.

(** X17.  [enhancedFuzzyMatch] is symmetric: a search text matches an address
    exactly when the address, used as search text, matches it. *)
Theorem enhancedFuzzyMatch_symmetric (a b : string) :
  Search.enhancedFuzzyMatch a b = Search.enhancedFuzzyMatch b a.
Proof.
  rewrite !enhancedFuzzyMatch_spec.
  rewrite (String.eqb_sym (Search.normalize a)).
  rewrite (existsb_swap Search.wordMatch).
  assert (Hflip : forall y l1,
             existsb (fun x => Search.wordMatch x y) l1
             = existsb (Search.wordMatch y) l1).
  { intros y l1. induction l1 as [|x l1 IH1]; [reflexivity|].
    cbn [existsb]. rewrite IH1. unfold Search.wordMatch.
    now rewrite (orb_comm (Text.includes y x)). }
  assert (Hw : forall l1 l2,
             existsb (fun y => existsb (fun x => Search.wordMatch x y) l1) l2
             = existsb (fun y => existsb (Search.wordMatch y) l1) l2).
  { intros l1 l2. induction l2 as [|y l2 IH]; [reflexivity|].
    cbn [existsb]. now rewrite IH, Hflip. }
  rewrite Hw.
  destruct (String.eqb a EmptyString), (String.eqb b EmptyString),
    (String.eqb (Search.normalize b) (Search.normalize a)),
    (Text.includes (Search.normalize b) (Search.normalize a)),
    (Text.includes (Search.normalize a) (Search.normalize b)),
    (existsb _ _); reflexivity.
Qed.

(** X18.  Matching ignores letter case: texts that differ only in the case of
    their letters match the same addresses. *)
Theorem enhancedFuzzyMatch_ignores_case (a a' b b' : string) :
  Text.toLowerCase a = Text.toLowerCase a' ->
  Text.toLowerCase b = Text.toLowerCase b' ->
  Search.enhancedFuzzyMatch a b = Search.enhancedFuzzyMatch a' b'.
Proof.
  intros Ha Hb.
  rewrite <- (enhancedFuzzyMatch_toLowerCase a b),
    <- (enhancedFuzzyMatch_toLowerCase a' b'), Ha, Hb.
  reflexivity.
Qed.

Lemma enhancedFuzzyMatch_ignores_case_witness :
  Search.enhancedFuzzyMatch "PUNE" "Pune Station"
  = Search.enhancedFuzzyMatch "pune" "pune station".
Proof.
  apply enhancedFuzzyMatch_ignores_case; reflexivity.
Defined.

(** X19.  A search text that is not empty but holds white space only matches
    every address: its normal form is the empty string, which every text
    includes.  [fuzzyLocationMatch], which trims the text before it calls
    [enhancedFuzzyMatch], finds no ride for it. *)
Theorem blank_search_text_matches_all (a b : string) (rides : list Search.Listing)
    (to : string) :
  a <> EmptyString -> Text.trim a = EmptyString -> b <> EmptyString ->
  Search.enhancedFuzzyMatch a b = true
  /\ Search.fuzzyLocationMatch rides a to = [].
Proof.
  intros Ha Hblank Hb.
  assert (Hlow : Text.trim (Text.toLowerCase a) = EmptyString).
  { now rewrite <- toLowerCase_trim, Hblank. }
  split.
  - rewrite enhancedFuzzyMatch_spec.
    rewrite (proj2 (String.eqb_neq _ _) Ha), (proj2 (String.eqb_neq _ _) Hb).
    assert (Hn : Search.normalize a = EmptyString).
    { unfold Search.normalize. now rewrite Hlow. }
    rewrite Hn, includes_empty, orb_true_r. reflexivity.
  - unfold Search.fuzzyLocationMatch. cbv zeta. rewrite Hlow.
    induction rides as [|r rides IH]; [reflexivity|].
    cbn [List.filter]. rewrite IH. reflexivity.
Qed.

Lemma blank_search_text_matches_all_witness :
  Search.enhancedFuzzyMatch " " "Pune Station" = true
  /\ Search.fuzzyLocationMatch
       [ {| Search.listed := Sample.ride0;
            Search.from_address := "Pune Station";
            Search.to_address := "Mumbai" |} ] " " "Mumbai" = [].
Proof.
  apply blank_search_text_matches_all; [discriminate | reflexivity | discriminate].
Defined.

Lemma fuzzyLocationMatch_filter (ride : Search.Listing) (from to : string) :
  Search.enhancedFuzzyMatch (Text.trim (Text.toLowerCase from))
    (Text.toLowerCase (Search.from_address ride))
  && Search.enhancedFuzzyMatch (Text.trim (Text.toLowerCase to))
       (Text.toLowerCase (Search.to_address ride)) = true ->
  Search.enhancedFuzzyMatch from (Search.from_address ride)
  && Search.enhancedFuzzyMatch to (Search.to_address ride) = true.
Proof.
  rewrite !enhancedFuzzyMatch_spec, !toLowerCase_eqb_empty,
    !normalize_toLowerCase, !normalize_trim_toLowerCase.
  intros H. apply andb_true_iff in H. destruct H as [H1 H2].
  apply andb_true_iff in H1, H2. destruct H1 as [H1 H1'], H2 as [H2 H2'].
  apply andb_true_iff in H1, H2. destruct H1 as [H1a H1b], H2 as [H2a H2b].
  assert (He : forall s, negb (String.eqb (Text.trim (Text.toLowerCase s))
                                 EmptyString) = true ->
                         negb (String.eqb s EmptyString) = true).
  { intros s. destruct s; [discriminate | reflexivity]. }
  rewrite (He _ H1a), (He _ H2a), H1b, H2b, H1', H2'. reflexivity.
Qed.

(** X20.  The fallback of [searchRides] never adds a ride: every ride
    [fuzzyLocationMatch] keeps is kept by the first pass as well, so the
    final results are the rides of the first pass. *)
Theorem searchRides_fallback_finds_nothing
    (rides : list Search.Listing) (from to : string) :
  Search.finalResults rides from to = Search.matchedRides rides from to.
Proof.
  unfold Search.finalResults. cbv zeta.
  destruct (Search.matchedRides rides from to) as [|m ms] eqn:Hm;
    [|reflexivity].
  cbn [List.length Nat.eqb].
  unfold Search.fuzzyLocationMatch, Search.matchedRides in *. cbv zeta in *.
  induction rides as [|r rides IH]; [reflexivity|].
  cbn [List.filter] in *.
  destruct (Search.enhancedFuzzyMatch from (Search.from_address r)
            && Search.enhancedFuzzyMatch to (Search.to_address r)) eqn:Hr;
    [discriminate|].
  destruct (Search.enhancedFuzzyMatch (Text.trim (Text.toLowerCase from)) _
            && _) eqn:Hf.
  - apply fuzzyLocationMatch_filter in Hf. congruence.
  - now apply IH.
Qed.

(** X21.  A match score lies between 0 and 220, and every ride in the final
    results of a search scores at least 40: both of its addresses pass the
    fuzzy test again when the score is computed. *)
Theorem calculateMatchScore_bounds
    (today : Date) (rides : list Search.Listing) (ride : Search.Listing)
    (from to : string) :
  0 <= Search.calculateMatchScore today ride from to <= 220
  /\ (In ride (Search.finalResults rides from to) ->
      40 <= Search.calculateMatchScore today ride from to).
Proof.
  unfold Search.calculateMatchScore. cbv zeta.
  rewrite !enhancedFuzzyMatch_toLowerCase.
  split.
  - repeat match goal with
           | |- context [if ?c then _ else _] => destruct c
           end; lia.
  - unfold Search.finalResults. cbv zeta.
    intros Hin.
    assert (Hm : In ride (Search.matchedRides rides from to)).
    { destruct (Search.matchedRides rides from to) as [|m ms] eqn:Hm;
        [|exact Hin].
      cbn [List.length Nat.eqb] in Hin.
      unfold Search.fuzzyLocationMatch in Hin. cbv zeta in Hin.
      apply filter_In in Hin. destruct Hin as [Hin Hf].
      apply fuzzyLocationMatch_filter in Hf.
      rewrite <- Hm. unfold Search.matchedRides. cbv zeta.
      apply filter_In. split; assumption. }
    unfold Search.matchedRides in Hm. cbv zeta in Hm.
    apply filter_In in Hm. destruct Hm as [_ Hf].
    apply andb_true_iff in Hf. destruct Hf as [-> ->].
    repeat match goal with
           | |- context [if ?c then _ else _] => destruct c
           end; lia.
Qed.

(** The one ride on offer, from Pune Station to Mumbai, found by a search
    from 'pune' to 'mumbai'. *)
Lemma calculateMatchScore_bounds_witness :
  40 <= Search.calculateMatchScore Sample.t0
          {| Search.listed := Sample.ride0;
             Search.from_address := "Pune Station";
             Search.to_address := "Mumbai" |} "pune" "mumbai".
Proof.
  apply (proj2 (calculateMatchScore_bounds Sample.t0
                  [ {| Search.listed := Sample.ride0;
                       Search.from_address := "Pune Station";
                       Search.to_address := "Mumbai" |} ]
                  {| Search.listed := Sample.ride0;
                     Search.from_address := "Pune Station";
                     Search.to_address := "Mumbai" |} "pune" "mumbai")).
  left. reflexivity.
Defined.
